(** * Desktop-Notification: the [Notify] facade of [src/notify.js]

    A shallow embedding of the notification shim and the properties its
    specification states about it.

    The shim is sequential JavaScript over host objects it does not
    control ([window.Notification], [window.webkitNotifications],
    [navigator.mozNotification], [window.mozNotification],
    [window.external]).  The embedding keeps three things explicit:

    - the facade's own fields ([supported], [cached]);
    - the host environment, as the properties and methods the source
      reads, each method either returning or raising;
    - the calls the facade makes into the host, recorded in order.

    Host methods are black boxes: they return a value or raise, and do not
    call back into the facade while they run.  Within one operation a host
    method answers the same way each time it is called; from one operation
    to the next the environment may be another.

    Objects have an identity ([oid]).  The cache lists the objects it
    refers to as they are now: a write to an object reaches every cache
    entry with that identity, so two entries that are the same object
    always show the same slots. *)

From Stdlib Require Import List String ZArith Bool Lia.
Import ListNotations.
Open Scope string_scope.
Open Scope list_scope.

(** ** JavaScript values *)

(** What a [throw] carries.  [TypeError] is raised by calling something
    that is not a function, by [new] on something that is not a
    constructor and by writing a property of [null]; [ReferenceError] by
    reading an undeclared global; [HostError] stands for whatever a host
    method throws. *)
Inductive exn : Type :=
| TypeError
| ReferenceError
| HostError (code : nat).

(** The completion of an expression or call: a value, or a [throw]. *)
Inductive outcome (A : Type) : Type :=
| Ret (a : A)
| Throw (e : exn).
Arguments Ret {A} a.
Arguments Throw {A} e.

(** A property the source tests for truthiness and then calls.
    [Missing] is a falsy value (normally [undefined]); [NonFunction] is a
    truthy value that cannot be called; [Function f] is a function whose
    call on arguments [a] completes as [f a]. *)
Inductive member (A B : Type) : Type :=
| Missing
| NonFunction
| Function (f : A -> outcome B).
Arguments Missing {A B}.
Arguments NonFunction {A B}.
Arguments Function {A B} f.

(** [if (o.m)]: the truthiness of a member. *)
Definition present {A B : Type} (m : member A B) : bool :=
  match m with
  | Missing => false
  | NonFunction | Function _ => true
  end.

(** Function objects by identity.  [NoopFn] is the literal
    [function() {}] of [requestPermission]. *)
Inductive fn : Type :=
| UserFn (id : nat)
| NoopFn.

(** Values, and the objects the facade handles: notification handles and
    the [callbacks] argument.  An object is seen through the properties
    the source reads or writes: the three callback slots and the two
    dismissal methods; [oid] is its identity.  A function is an object
    too: [VFun f] is a function with no properties of its own among
    those, [VFunWith f props] a function that has some, called as [f] and
    read as [props]. *)
Inductive value : Type :=
| VUndefined
| VNull
| VBool (b : bool)
| VNum (z : Z)
| VNaN
| VStr (s : string)
| VFun (f : fn)
| VFunWith (f : fn) (props : object)
| VObject (o : object)
with object : Type :=
| mkObject (oid : nat) (onclick onclose onshow : value)
           (close cancel : member unit unit).

Definition oid (o : object) : nat :=
  match o with mkObject i _ _ _ _ _ => i end.
Definition onclick (o : object) : value :=
  match o with mkObject _ v _ _ _ _ => v end.
Definition onclose (o : object) : value :=
  match o with mkObject _ _ v _ _ _ => v end.
Definition onshow (o : object) : value :=
  match o with mkObject _ _ _ v _ _ => v end.
Definition close (o : object) : member unit unit :=
  match o with mkObject _ _ _ _ m _ => m end.
Definition cancel (o : object) : member unit unit :=
  match o with mkObject _ _ _ _ _ m => m end.

(** [o.onclick = v], [o.onclose = v], [o.onshow = v]. *)
Definition set_onclick (v : value) (o : object) : object :=
  match o with mkObject i _ b c m n => mkObject i v b c m n end.
Definition set_onclose (v : value) (o : object) : object :=
  match o with mkObject i a _ c m n => mkObject i a v c m n end.
Definition set_onshow (v : value) (o : object) : object :=
  match o with mkObject i a b _ m n => mkObject i a b v m n end.

(** JavaScript truthiness ([if (v)], [!!v], [Boolean(v)]).  Numbers are
    integers here; a fraction is truthy like any other non-zero number. *)
Definition truthy (v : value) : bool :=
  match v with
  | VUndefined | VNull | VNaN => false
  | VBool b => b
  | VNum z => negb (Z.eqb z 0)
  | VStr s => negb (String.eqb s "")
  | VFun _ | VFunWith _ _ | VObject _ => true
  end.

Inductive jstype : Type :=
| TUndefined | TObject | TBoolean | TNumber | TString | TFunction.

(** [typeof v]; note [typeof null === 'object']. *)
Definition typeof (v : value) : jstype :=
  match v with
  | VUndefined => TUndefined
  | VNull | VObject _ => TObject
  | VBool _ => TBoolean
  | VNum _ | VNaN => TNumber
  | VStr _ => TString
  | VFun _ | VFunWith _ _ => TFunction
  end.

(** [v !== undefined]. *)
Definition is_undefined (v : value) : bool :=
  match v with VUndefined => true | _ => false end.

(** [v === s] for a string literal [s]. *)
Definition is_string (s : string) (v : value) : bool :=
  match v with VStr t => String.eqb t s | _ => false end.

(** Undefined, null and the primitives: everything but objects and
    functions. *)
Definition is_primitive (v : value) : bool :=
  match v with
  | VFun _ | VFunWith _ _ | VObject _ => false
  | _ => true
  end.

(** [Object(v).onclick] and its siblings.  [Object(v)] is [v] itself when
    [v] is an object or a function, whose own property is read; on a
    wrapped primitive, on [Object(undefined)] and on [Object(null)] the
    read finds nothing. *)
Definition prop_onclick (v : value) : value :=
  match v with
  | VObject o | VFunWith _ o => onclick o
  | _ => VUndefined
  end.
Definition prop_onclose (v : value) : value :=
  match v with
  | VObject o | VFunWith _ o => onclose o
  | _ => VUndefined
  end.
Definition prop_onshow (v : value) : value :=
  match v with
  | VObject o | VFunWith _ o => onshow o
  | _ => VUndefined
  end.

(** What [new] yields when it returns: always an object, never a
    primitive, [null] or [undefined].  It is the freshly built object, or
    what the constructor returned when that is an object or a
    function. *)
Inductive built : Type :=
| BuiltObject (o : object)
| BuiltFunction (f : fn).

Definition value_of_built (b : built) : value :=
  match b with
  | BuiltObject o => VObject o
  | BuiltFunction f => VFun f
  end.

(** ** The host environment *)

(** [window.Notification] when truthy. [construct] is
    [new window.Notification(title, {icon, body})] on (title, icon, body),
    [None] when the value is not a constructor. *)
Record NotificationApi : Type := {
  permissionLevel : member unit value;
  permission : value;
  std_requestPermission : member fn unit;
  construct : option (value * value * value -> outcome built)
}.

(** [window.webkitNotifications] when truthy;
    [createNotification(icon, title, message)]. *)
Record WebkitApi : Type := {
  checkPermission : member unit value;
  webkit_requestPermission : member fn unit;
  webkit_createNotification : member (value * value * value) value
}.

(** [navigator.mozNotification] or [window.mozNotification] when truthy;
    [createNotification(title, message, icon)]. *)
Record MozApi : Type := {
  moz_createNotification : member (value * value * value) value
}.

(** [window.external] when truthy. *)
Record ExternalApi : Type := {
  msIsSiteMode : member unit value;
  msSiteModeClearIconOverlay : member unit unit;
  msSiteModeActivate : member unit unit;
  msSiteModeSetIconOverlay : member (value * value) unit
}.

(** The global [navigator] when it is declared. *)
Record Navigator : Type := {
  nav_mozNotification : option MozApi
}.

(** The globals the source reads.  [None] for a [window] property is a
    falsy value; [None] for [navigator] is an undeclared identifier, whose
    read raises [ReferenceError]. *)
Record Env : Type := {
  win_Notification : option NotificationApi;
  win_webkitNotifications : option WebkitApi;
  win_mozNotification : option MozApi;
  win_external : option ExternalApi;
  navigator : option Navigator
}.

(** ** Calls into the host *)

Inductive event : Type :=
| CallIsSiteMode
| CallPermissionLevel
| CallWebkitRequestPermission (callable : fn)
| CallStdRequestPermission (callable : fn)
| CallClearIconOverlay
| CallActivate
| CallSetIconOverlay (icon message : value)
| CallWebkitCreate (icon title message : value)
| CallMozCreate (title message icon : value)
| CallConstruct (title icon body : value)
| CallClose (target : object)
| CallCancel (target : object).

(** The calls that only ask the host about permission. *)
Definition is_query (ev : event) : bool :=
  match ev with
  | CallIsSiteMode | CallPermissionLevel => true
  | _ => false
  end.

(** The calls that hand a callback to the host. *)
Definition hands_callback (ev : event) : bool :=
  match ev with
  | CallWebkitRequestPermission _ | CallStdRequestPermission _ => true
  | _ => false
  end.

(** Any call at all. *)
Definition any_call (ev : event) : bool := true.

(** ** The facade *)

(** [this.supported] ([None] is [null]), [this.cached], and the host calls
    made so far, oldest first. *)
Record state : Type := {
  supported : option bool;
  cached : list object;
  trace : list event
}.

Definition PERMISSION_GRANTED : value := VStr "granted".
Definition PERMISSION_DEFAULT : value := VStr "default".

(** Statements: a state transformer that completes with a value or a
    [throw]; the state survives a [throw]. *)
Definition M (A : Type) : Type := state -> outcome A * state.

Definition ret {A : Type} (a : A) : M A := fun s => (Ret a, s).

Definition throw {A : Type} (e : exn) : M A := fun s => (Throw e, s).

Definition bind {A B : Type} (m : M A) (k : A -> M B) : M B :=
  fun s =>
    match m s with
    | (Ret a, s') => k a s'
    | (Throw e, s') => (Throw e, s')
    end.

(** [try { m } catch (e) { h e }]. *)
Definition try_catch {A : Type} (m : M A) (h : exn -> M A) : M A :=
  fun s =>
    match m s with
    | (Ret a, s') => (Ret a, s')
    | (Throw e, s') => h e s'
    end.

Declare Scope js_scope.
Delimit Scope js_scope with js.
Notation "x <- m ;; k" := (bind m (fun x => k))
  (at level 61, m at next level, right associativity) : js_scope.
Notation "m ;; k" := (bind m (fun _ => k))
  (at level 61, right associativity) : js_scope.
Open Scope js_scope.

Definition log (ev : event) (s : state) : state :=
  {| supported := supported s; cached := cached s; trace := trace s ++ [ev] |}.

Definition get_supported : M (option bool) := fun s => (Ret (supported s), s).

Definition set_supported (b : option bool) : M unit :=
  fun s => (Ret tt, {| supported := b; cached := cached s; trace := trace s |}).

Definition get_cached : M (list object) := fun s => (Ret (cached s), s).

Definition set_cached (l : list object) : M unit :=
  fun s => (Ret tt, {| supported := supported s; cached := l; trace := trace s |}).

(** [o.m(a)]: a [TypeError] when [m] is not a function, else the call is
    made (and recorded) and completes as the host decides. *)
Definition invoke {A B : Type} (m : member A B) (a : A) (ev : event) : M B :=
  match m with
  | Missing | NonFunction => throw TypeError
  | Function f => fun s => (f a, log ev s)
  end.

(** [new c(a)]: a [TypeError] when [c] is not a constructor, else the
    construction is made (and recorded); it raises, or yields the object
    built. *)
Definition invoke_new {A : Type} (c : option (A -> outcome built)) (a : A)
           (ev : event) : M value :=
  match c with
  | None => throw TypeError
  | Some f =>
      fun s =>
        (match f a with
         | Ret b => Ret (value_of_built b)
         | Throw e => Throw e
         end, log ev s)
  end.

(** The cache [l] once the object with the identity of [o] reads as [o]:
    every entry that is that object is [o] now, the others are as they
    were. *)
Definition write_object (o : object) (l : list object) : list object :=
  map (fun x => if Nat.eqb (oid x) (oid o) then o else x) l.

(** A write to an object, after which it reads as [o], seen from the
    cache. *)
Definition write (o : object) : M unit :=
  l <- get_cached ;;
  set_cached (write_object o l).

(** [Boolean(this.supported)]. *)
Definition Boolean (b : option bool) : bool :=
  match b with Some true => true | _ => false end.

Section Facade.

Variable env : Env.

(** The global identifier [navigator]. *)
Definition read_navigator : M Navigator :=
  match navigator env with
  | Some nav => ret nav
  | None => throw ReferenceError
  end.

(** Lines 44-48: the detection expression under [!!]. *)
Definition detect : M bool :=
  match win_Notification env with
  | Some _ => ret true
  | None =>
    match win_webkitNotifications env with
    | Some _ => ret true
    | None =>
      nav <- read_navigator ;;
      match nav_mozNotification nav with
      | Some _ => ret true
      | None =>
        match win_external env with
        | None => ret false
        | Some ext =>
          v <- invoke (msIsSiteMode ext) tt CallIsSiteMode ;;
          ret (negb (is_undefined v))
        end
      end
    end
  end.

(** [Notify.prototype.available], lines 38-57. *)
Definition available : M bool :=
  sup <- get_supported ;;
  match sup with
  | None =>
      try_catch (b <- detect ;; set_supported (Some b))
                (fun _ => set_supported (Some false))
  | Some _ => ret tt
  end ;;
  sup' <- get_supported ;;
  ret (Boolean sup').

(** [typeof callback === 'function' ? callback : function() {}],
    line 72. *)
Definition callable_of (callback : value) : fn :=
  match callback with
  | VFun f | VFunWith f _ => f
  | _ => NoopFn
  end.

(** [window.webkitNotifications && window.webkitNotifications.checkPermission],
    line 74. *)
Definition webkit_entry : option WebkitApi :=
  match win_webkitNotifications env with
  | Some wk => if present (checkPermission wk) then Some wk else None
  | None => None
  end.

(** [window.Notification && window.Notification.requestPermission],
    line 86. *)
Definition standard_entry : option NotificationApi :=
  match win_Notification env with
  | Some api => if present (std_requestPermission api) then Some api else None
  | None => None
  end.

(** [Notify.prototype.requestPermission], lines 65-90. *)
Definition requestPermission (callback : value) : M unit :=
  ok <- available ;;
  if negb ok then ret tt
  else
    let callable := callable_of callback in
    match webkit_entry with
    | Some wk =>
        invoke (webkit_requestPermission wk) callable
               (CallWebkitRequestPermission callable)
    | None =>
      match standard_entry with
      | Some api =>
          invoke (std_requestPermission api) callable
                 (CallStdRequestPermission callable)
      | None => ret tt
      end
    end.

(** [window.Notification && window.Notification.permissionLevel],
    line 108. *)
Definition level_query : option NotificationApi :=
  match win_Notification env with
  | Some api => if present (permissionLevel api) then Some api else None
  | None => None
  end.

(** [window.Notification && window.Notification.permission], line 113. *)
Definition permission_property : option NotificationApi :=
  match win_Notification env with
  | Some api => if truthy (permission api) then Some api else None
  | None => None
  end.

(** [window.external && (window.external.msIsSiteMode() !== undefined)],
    line 123. *)
Definition site_mode_defined : M (option ExternalApi) :=
  match win_external env with
  | None => ret None
  | Some ext =>
      v <- invoke (msIsSiteMode ext) tt CallIsSiteMode ;;
      ret (if is_undefined v then None else Some ext)
  end.

(** [Notify.prototype.permissionStatus], lines 99-130. *)
Definition permissionStatus : M value :=
  ok <- available ;;
  if negb ok then ret (VBool false)
  else
    match level_query with
    | Some api => invoke (permissionLevel api) tt CallPermissionLevel
    | None =>
      match permission_property with
      | Some api => ret (permission api)
      | None =>
        nav <- read_navigator ;;
        match nav_mozNotification nav with
        | Some _ => ret PERMISSION_GRANTED
        | None =>
          site <- site_mode_defined ;;
          match site with
          | Some ext =>
              active <- invoke (msIsSiteMode ext) tt CallIsSiteMode ;;
              ret (if truthy active then PERMISSION_GRANTED
                   else PERMISSION_DEFAULT)
          | None => ret (VStr "")
          end
        end
      end
    end.

(** The [forEach] callback of [removeAll] after its first statement,
    lines 207-218, on the handle [n] (already detached). *)
Definition dismiss (n : object) : M unit :=
  if present (close n) then invoke (close n) tt (CallClose n)
  else if present (cancel n) then invoke (cancel n) tt (CallCancel n)
  else
    match win_external env with
    | None => ret tt
    | Some ext =>
        active <- invoke (msIsSiteMode ext) tt CallIsSiteMode ;;
        if truthy active
        then invoke (msSiteModeClearIconOverlay ext) tt CallClearIconOverlay
        else ret tt
    end.

(** Line 206: [notification.onclose = null]. *)
Definition detach (n : object) : object := set_onclose VNull n.

(** [this.cached.forEach(...)], lines 204-219, on the elements [todo]
    still to visit.  The write [notification.onclose = null] is a write
    to the object itself: it shows in every cache entry that is that
    object. *)
Fixpoint forEach_dismiss (todo : list object) : M unit :=
  match todo with
  | [] => ret tt
  | n :: rest =>
      write (detach n) ;;
      dismiss (detach n) ;;
      forEach_dismiss rest
  end.

(** [Notify.prototype.removeAll], lines 202-222. *)
Definition removeAll : M unit :=
  l <- get_cached ;;
  forEach_dismiss l ;;
  set_cached [].

(** [window.external && window.external.msIsSiteMode], line 162. *)
Definition site_mode_api : option ExternalApi :=
  match win_external env with
  | Some ext => if present (msIsSiteMode ext) then Some ext else None
  | None => None
  end.

(** Lines 160-185 of [send]: the value left in [notification]. *)
Definition create (title message icon : value) : M value :=
  match site_mode_api with
  | Some ext =>
      active <- invoke (msIsSiteMode ext) tt CallIsSiteMode ;;
      if truthy active
      then
        invoke (msSiteModeClearIconOverlay ext) tt CallClearIconOverlay ;;
        invoke (msSiteModeActivate ext) tt CallActivate ;;
        invoke (msSiteModeSetIconOverlay ext) (icon, message)
               (CallSetIconOverlay icon message) ;;
        ret VUndefined
      else ret VUndefined
  | None =>
    match win_webkitNotifications env with
    | Some wk =>
        invoke (webkit_createNotification wk) (icon, title, message)
               (CallWebkitCreate icon title message)
    | None =>
      match win_mozNotification env with
      | Some moz =>
          invoke (moz_createNotification moz) (title, message, icon)
                 (CallMozCreate title message icon)
      | None =>
        match win_Notification env with
        | Some api =>
            invoke_new (construct api) (title, icon, message)
                       (CallConstruct title icon message)
        | None => ret VUndefined
        end
      end
    end
  end.

(** [(typeof v === 'function') ? v : null], lines 189-191. *)
Definition function_or_null (v : value) : value :=
  match typeof v with
  | TFunction => v
  | _ => VNull
  end.

(** Lines 189-191: the handle [o] after the three slot assignments. *)
Definition wire (callbacks : value) (o : object) : object :=
  let o1 := set_onclick (function_or_null (prop_onclick callbacks)) o in
  let o2 := set_onclose (function_or_null (prop_onclose callbacks)) o1 in
  set_onshow (function_or_null (prop_onshow callbacks)) o2.

(** Lines 187-194 of [send]: under [typeof notification === 'object'],
    the slots are written on the object itself (a [TypeError] on [null]),
    which shows in every cache entry that is already that object, and
    the object is pushed on the cache. *)
Definition attach (callbacks notification : value) : M unit :=
  match typeof notification with
  | TObject =>
      match notification with
      | VObject o =>
          write (wire callbacks o) ;;
          l <- get_cached ;;
          set_cached (l ++ [wire callbacks o])
      | _ => throw TypeError
      end
  | _ => ret tt
  end.

(** [Notify.prototype.send], lines 146-195. *)
Definition send (title message icon callbacks isRemoveAll : value) : M value :=
  status <- permissionStatus ;;
  if negb (is_string "granted" status) then ret (VBool false)
  else
    (if truthy isRemoveAll then removeAll else ret tt) ;;
    notification <- create title message icon ;;
    attach callbacks notification ;;
    ret VUndefined.

(** The constructor, lines 13-31: [supported] starts [null], the probe
    runs, then the cache is created empty. *)
Definition Notify : state :=
  let s0 := {| supported := None; cached := []; trace := [] |} in
  let s1 := snd (available s0) in
  {| supported := supported s1; cached := []; trace := trace s1 |}.

End Facade.

(** ** Repeated calls and environments without a backend *)





(** ** What an operation leaves alone *)

(** From [s] to [s']: the cache is the same and every host call made in
    between satisfies [P]. *)
Definition only_calls (P : event -> bool) (s s' : state) : Prop :=
  cached s' = cached s /\
  exists evs, trace s' = trace s ++ evs /\ forallb P evs = true.

(** From [s] to [s']: an answer memoized in [supported] is still there. *)
Definition memo_kept (s s' : state) : Prop :=
  forall b, supported s = Some b -> supported s' = Some b.

(** A statement that relates every state to the one it leaves by [R],
    however it completes. *)
Definition respects {A : Type} (R : state -> state -> Prop) (m : M A) : Prop :=
  forall s, R s (snd (m s)).

(** The relations statements are framed by: reflexive and transitive. *)
Class Frame (R : state -> state -> Prop) : Prop := {
  frame_refl : forall s, R s s;
  frame_trans : forall s1 s2 s3, R s1 s2 -> R s2 s3 -> R s1 s3
}.

(** ** Dismissal of one handle, seen from outside *)

(** A facade nobody has used: nothing memoized, nothing cached, no call
    made. *)
Definition pristine : state :=
  {| supported := None; cached := []; trace := [] |}.

(** How the [forEach] callback completes on the cached handle [n], and
    the host calls it makes. *)
Definition dismissal (env : Env) (n : object) : outcome unit :=
  fst (dismiss env (detach n) pristine).

Definition dismissal_calls (env : Env) (n : object) : list event :=
  trace (snd (dismiss env (detach n) pristine)).

(** The cache [l] after the objects [visited] have been detached, one
    after the other. *)
Definition detach_each (visited : list object) (l : list object) : list object :=
  fold_left (fun acc n => write_object (detach n) acc) visited l.


(** [s] with its trace extended by [evs]. *)
Definition log_all (evs : list event) (s : state) : state :=
  {| supported := supported s; cached := cached s; trace := trace s ++ evs |}.

(** ** Sample environments and handles *)

Module Sample.

(** A browser with a [navigator] and none of the notification globals. *)
Definition bare : Env :=
  {| win_Notification := None;
     win_webkitNotifications := None;
     win_mozNotification := None;
     win_external := None;
     navigator := Some {| nav_mozNotification := None |} |}.

(** A handle whose [close()] returns. *)
Definition handle (i : nat) : object :=
  mkObject i VUndefined VUndefined VUndefined
           (Function (fun _ => Ret tt)) Missing.

(** A handle whose [close()] raises. *)
Definition stuck_handle (i : nat) : object :=
  mkObject i VUndefined VUndefined VUndefined
           (Function (fun _ => Throw (HostError 7))) Missing.

(** Internet Explorer 9: only [window.external], whose [msIsSiteMode()]
    returns [mode]. *)
Definition site_mode_shell (mode : outcome value) : ExternalApi :=
  {| msIsSiteMode := Function (fun _ => mode);
     msSiteModeClearIconOverlay := Function (fun _ => Ret tt);
     msSiteModeActivate := Function (fun _ => Ret tt);
     msSiteModeSetIconOverlay := Function (fun _ => Ret tt) |}.

Definition explorer (mode : outcome value) : Env :=
  {| win_Notification := None;
     win_webkitNotifications := None;
     win_mozNotification := None;
     win_external := Some (site_mode_shell mode);
     navigator := Some {| nav_mozNotification := None |} |}.

(** Firefox Mobile: [navigator.mozNotification] creates handles number
    [5]; there is no [window.mozNotification]. *)
Definition mobile_factory : MozApi :=
  {| moz_createNotification := Function (fun _ => Ret (VObject (handle 5))) |}.

Definition firefox_mobile : Env :=
  {| win_Notification := None;
     win_webkitNotifications := None;
     win_mozNotification := None;
     win_external := None;
     navigator := Some {| nav_mozNotification := Some mobile_factory |} |}.

(** A browser with the standard constructor only, permission [status],
    handles number [9]. *)
Definition standard_api (status : value) : NotificationApi :=
  {| permissionLevel := Missing;
     permission := status;
     std_requestPermission := Function (fun _ => Ret tt);
     construct := Some (fun _ => Ret (BuiltObject (handle 9))) |}.

Definition standard (status : value) : Env :=
  {| win_Notification := Some (standard_api status);
     win_webkitNotifications := None;
     win_mozNotification := None;
     win_external := None;
     navigator := Some {| nav_mozNotification := None |} |}.

(** A facade that has memoized [b] and caches [l]. *)
Definition facade (b : option bool) (l : list object) : state :=
  {| supported := b; cached := l; trace := [] |}.

(** A facade caching a handle that cannot be closed, then one that
    can. *)
Definition jammed : state :=
  facade (Some true) [stuck_handle 1; handle 2].

End Sample.

(** ** Further vocabulary *)

(** From [s] to [s']: every host call made in between satisfies [P]; the
    cache may have changed. *)
Definition calls_only (P : event -> bool) (s s' : state) : Prop :=
  exists evs, trace s' = trace s ++ evs /\ forallb P evs = true.

(** From [s] to [s']: what held of [s] holds of [s']. *)
Definition carries (I : state -> Prop) (s s' : state) : Prop := I s -> I s'.

(** [v === null]. *)
Definition is_null (v : value) : bool :=
  match v with VNull => true | _ => false end.

(** A [close()] or [cancel()] call is fine when its target has no
    [onclose] handler left. *)
Definition detached_target (ev : event) : bool :=
  match ev with
  | CallClose t | CallCancel t => is_null (onclose t)
  | _ => true
  end.

(** The calls that show, draw or dismiss a notification: everything but
    the permission queries and requests. *)
Definition shows_or_dismisses (ev : event) : bool :=
  match ev with
  | CallClearIconOverlay | CallActivate | CallSetIconOverlay _ _
  | CallWebkitCreate _ _ _ | CallMozCreate _ _ _ | CallConstruct _ _ _
  | CallClose _ | CallCancel _ => true
  | CallIsSiteMode | CallPermissionLevel
  | CallWebkitRequestPermission _ | CallStdRequestPermission _ => false
  end.

Definition quiet (ev : event) : bool := negb (shows_or_dismisses ev).

(** A callback slot holding a function or [null]. *)
Definition slot_ok (v : value) : bool :=
  match v with
  | VNull | VFun _ | VFunWith _ _ => true
  | _ => false
  end.

Definition wired (o : object) : bool :=
  slot_ok (onclick o) && slot_ok (onclose o) && slot_ok (onshow o).

Definition cache_wired (s : state) : Prop := forallb wired (cached s) = true.

(** Entries with the same identity are the same object, so they read
    the same. *)
Definition coherent (l : list object) : Prop :=
  forall x y, In x l -> In y l -> oid x = oid y -> x = y.

(** A cache as the code leaves it: handles wired, same identity same
    object. *)
Definition cache_sound (s : state) : Prop :=
  cache_wired s /\ coherent (cached s).

(** The call [removeAll] makes for a handle that has [close] or
    [cancel]. *)
Definition dismiss_call (n : object) : event :=
  if present (close n) then CallClose (detach n) else CallCancel (detach n).

(** A handle whose preferred dismissal method is a function that
    returns: [close] if it has one, else [cancel]. *)
Definition closable (n : object) : Prop :=
  (exists f, close n = Function f /\ f tt = Ret tt) \/
  (close n = Missing /\ exists g, cancel n = Function g /\ g tt = Ret tt).

(** The arguments of one [send]. *)
Record request : Type := {
  req_title : value;
  req_message : value;
  req_icon : value;
  req_callbacks : value;
  req_isRemoveAll : value
}.

Definition send_request (env : Env) (r : request) : M value :=
  send env (req_title r) (req_message r) (req_icon r) (req_callbacks r)
       (req_isRemoveAll r).

(** One [send] per request, in order, each from the state the previous
    one left, however it completed. *)
Fixpoint send_each (env : Env) (reqs : list request) (s : state) : state :=
  match reqs with
  | [] => s
  | r :: rest => send_each env rest (snd (send_request env r s))
  end.

(** The states a facade can be in: built by the constructor, then driven
    through its five operations, each in the environment of its moment
    and whatever its completion. *)
Inductive reachable : state -> Prop :=
| reach_Notify (env : Env) : reachable (Notify env)
| reach_available (env : Env) (s : state) :
    reachable s -> reachable (snd (available env s))
| reach_requestPermission (env : Env) (callback : value) (s : state) :
    reachable s -> reachable (snd (requestPermission env callback s))
| reach_permissionStatus (env : Env) (s : state) :
    reachable s -> reachable (snd (permissionStatus env s))
| reach_send (env : Env) (r : request) (s : state) :
    reachable s -> reachable (snd (send_request env r s))
| reach_removeAll (env : Env) (s : state) :
    reachable s -> reachable (snd (removeAll env s)).

Module More.

(** A vendor factory whose [createNotification] hands back handle
    number [4]. *)
Definition vendor : WebkitApi :=
  {| checkPermission := Function (fun _ => Ret (VNum 0));
     webkit_requestPermission := Function (fun _ => Ret tt);
     webkit_createNotification :=
       Function (fun _ => Ret (VObject (Sample.handle 4))) |}.

(** Only [window.webkitNotifications]. *)
Definition webkit_only : Env :=
  {| win_Notification := None;
     win_webkitNotifications := Some vendor;
     win_mozNotification := None;
     win_external := None;
     navigator := Some {| nav_mozNotification := None |} |}.

(** Chrome: the standard constructor, permission granted, and the vendor
    factory; [window.external] is an object without [msIsSiteMode]. *)
Definition chrome : Env :=
  {| win_Notification := Some (Sample.standard_api PERMISSION_GRANTED);
     win_webkitNotifications := Some vendor;
     win_mozNotification := None;
     win_external :=
       Some {| msIsSiteMode := Missing;
               msSiteModeClearIconOverlay := Missing;
               msSiteModeActivate := Missing;
               msSiteModeSetIconOverlay := Missing |};
     navigator := Some {| nav_mozNotification := None |} |}.

(** The standard constructor only, permission granted, whose [new]
    completes as [result]. *)
Definition standard_giving (result : outcome built) : Env :=
  {| win_Notification :=
       Some {| permissionLevel := Missing;
               permission := PERMISSION_GRANTED;
               std_requestPermission := Function (fun _ => Ret tt);
               construct := Some (fun _ => result) |};
     win_webkitNotifications := None;
     win_mozNotification := None;
     win_external := None;
     navigator := Some {| nav_mozNotification := None |} |}.

(** Safari 6 gone wrong: [permissionLevel] is there but is not a
    function. *)
Definition broken_level : Env :=
  {| win_Notification :=
       Some {| permissionLevel := NonFunction;
               permission := PERMISSION_GRANTED;
               std_requestPermission := Missing;
               construct := None |};
     win_webkitNotifications := None;
     win_mozNotification := None;
     win_external := None;
     navigator := Some {| nav_mozNotification := None |} |}.

(** [{onclick: fn, onclose: 5}]. *)
Definition click_only : value :=
  VObject (mkObject 0 (VFun (UserFn 1)) (VNum 5) VUndefined Missing Missing).

(** A function passed as [callbacks], with an [onclose] of its own. *)
Definition closing_function : value :=
  VFunWith (UserFn 2)
           (mkObject 0 VUndefined (VFun (UserFn 5)) VUndefined Missing Missing).

(** A handle as a backend may leave it, with slots already filled and
    both [close] and [cancel]. *)
Definition busy_handle (i : nat) : object :=
  mkObject i (VStr "x") (VFun (UserFn 8)) (VNum 2)
           (Function (fun _ => Ret tt)) (Function (fun _ => Throw TypeError)).

(** An old handle with [cancel] only. *)
Definition legacy_handle (i : nat) : object :=
  mkObject i VNull (VFun (UserFn 3)) VNull Missing (Function (fun _ => Ret tt)).

(** [window.webkitNotifications] with [checkPermission] and nothing
    else, and no other backend. *)
Definition half_vendor : Env :=
  {| win_Notification := None;
     win_webkitNotifications :=
       Some {| checkPermission := Function (fun _ => Ret (VNum 0));
               webkit_requestPermission := Missing;
               webkit_createNotification := Missing |};
     win_mozNotification := None;
     win_external := None;
     navigator := Some {| nav_mozNotification := None |} |}.

(** An early Chrome, or Firefox with the html5notifications plugin: the
    vendor factory, no [window.Notification], and a [window.external]
    that is an object without [msIsSiteMode]. *)
Definition old_chrome : Env :=
  {| win_Notification := None;
     win_webkitNotifications := Some vendor;
     win_mozNotification := None;
     win_external :=
       Some {| msIsSiteMode := Missing;
               msSiteModeClearIconOverlay := Missing;
               msSiteModeActivate := Missing;
               msSiteModeSetIconOverlay := Missing |};
     navigator := Some {| nav_mozNotification := None |} |}.

(** Permission granted by [window.Notification.permission], and a vendor
    factory whose [createNotification] completes as [result]. *)
Definition vendor_giving (result : outcome value) : Env :=
  {| win_Notification := Some (Sample.standard_api PERMISSION_GRANTED);
     win_webkitNotifications :=
       Some {| checkPermission := Function (fun _ => Ret (VNum 0));
               webkit_requestPermission := Function (fun _ => Ret tt);
               webkit_createNotification := Function (fun _ => result) |};
     win_mozNotification := None;
     win_external := None;
     navigator := Some {| nav_mozNotification := None |} |}.






Definition hello (isRemoveAll : value) : request :=
  {| req_title := VStr "Hi"; req_message := VStr "Body";
     req_icon := VStr "icon.png"; req_callbacks := VUndefined;
     req_isRemoveAll := isRemoveAll |}.

End More.

(** ** What an environment offers, read off its globals *)

(** [window.Notification] has no [permissionLevel] to call. *)
Definition no_level_query (env : Env) : Prop :=
  match win_Notification env with
  | None => True
  | Some api => permissionLevel api = Missing
  end.

(** [window.Notification] has no truthy [permission]. *)
Definition no_permission_property (env : Env) : Prop :=
  match win_Notification env with
  | None => True
  | Some api => truthy (permission api) = false
  end.

(** [window.webkitNotifications] has no [checkPermission]. *)
Definition no_vendor_entry (env : Env) : Prop :=
  match win_webkitNotifications env with
  | None => True
  | Some wk => checkPermission wk = Missing
  end.

(** [window.Notification] has no [requestPermission]. *)
Definition no_standard_entry (env : Env) : Prop :=
  match win_Notification env with
  | None => True
  | Some api => std_requestPermission api = Missing
  end.

(** Some backend that is present exposes a permission-request entry
    point: a [requestPermission] on the vendor object or on the standard
    one. *)
Definition exposes_request_entry (env : Env) : bool :=
  match win_webkitNotifications env with
  | Some wk => present (webkit_requestPermission wk)
  | None => false
  end
  || match win_Notification env with
     | Some api => present (std_requestPermission api)
     | None => false
     end.

(** ** Proof support *)

Ltac unfold_js :=
  unfold bind, ret, throw, try_catch, get_supported, set_supported,
    get_cached, set_cached, invoke, invoke_new, read_navigator in *.

Lemma Boolean_Some (b : bool) : Boolean (Some b) = b.
Proof. destruct b; reflexivity. Qed.

(** A memoized answer is returned as it is: no probe, no state change. *)
Lemma available_cached (env : Env) (s : state) (b : bool) :
  supported s = Some b -> available env s = (Ret b, s).
Proof.
  intros H. unfold available. unfold_js. rewrite H. simpl.
  rewrite H, Boolean_Some. reflexivity.
Qed.

(** The first call stores what the probe found, or [false] when the probe
    raised. *)
Lemma available_fresh (env : Env) (s : state) :
  supported s = None ->
  available env s =
    match detect env s with
    | (Ret b, s1) =>
        (Ret b, {| supported := Some b; cached := cached s1; trace := trace s1 |})
    | (Throw _, s1) =>
        (Ret false,
         {| supported := Some false; cached := cached s1; trace := trace s1 |})
    end.
Proof.
  intros H. unfold available. unfold_js. rewrite H.
  destruct (detect env s) as [[[|]|e] s1]; reflexivity.
Qed.

Lemma available_returns (env : Env) (s : state) :
  exists b s1, available env s = (Ret b, s1) /\ supported s1 = Some b.
Proof.
  destruct (supported s) as [b|] eqn:H.
  - exists b, s. split; [apply available_cached; exact H | exact H].
  - rewrite (available_fresh env s H).
    destruct (detect env s) as [[b|e] s1]; eauto.
Qed.



(** *** Framing: what statements leave alone *)

Lemma only_calls_refl (P : event -> bool) (s : state) : only_calls P s s.
Proof.
  split; [reflexivity|]. exists []. rewrite app_nil_r. split; reflexivity.
Qed.

Lemma only_calls_trans (P : event -> bool) (s1 s2 s3 : state) :
  only_calls P s1 s2 -> only_calls P s2 s3 -> only_calls P s1 s3.
Proof.
  intros [Hc1 [e1 [Ht1 Hp1]]] [Hc2 [e2 [Ht2 Hp2]]]. split.
  - congruence.
  - exists (e1 ++ e2). rewrite Ht2, Ht1, app_assoc. split; [reflexivity|].
    rewrite forallb_app, Hp1, Hp2. reflexivity.
Qed.

#[local] Instance only_calls_frame (P : event -> bool) : Frame (only_calls P).
Proof. split; [apply only_calls_refl | apply only_calls_trans]. Qed.

#[local] Instance memo_kept_frame : Frame memo_kept.
Proof. split; unfold memo_kept; auto. Qed.

Lemma only_calls_log (P : event -> bool) (ev : event) (s : state) :
  P ev = true -> only_calls P s (log ev s).
Proof.
  intros H. split; [reflexivity|]. exists [ev]. simpl. rewrite H.
  split; reflexivity.
Qed.

Lemma memo_kept_log (ev : event) (s : state) : memo_kept s (log ev s).
Proof. intros b H. exact H. Qed.

Section Respects.

Context (R : state -> state -> Prop) `{Frame R}.

Lemma respects_ret {A : Type} (a : A) : respects R (ret a).
Proof. intros s. apply frame_refl. Qed.

Lemma respects_throw {A : Type} (e : exn) : respects R (@throw A e).
Proof. intros s. apply frame_refl. Qed.

Lemma respects_bind {A B : Type} (m : M A) (k : A -> M B) :
  respects R m -> (forall a, respects R (k a)) -> respects R (bind m k).
Proof.
  intros Hm Hk s. unfold bind. specialize (Hm s).
  destruct (m s) as [[a|e] s1]; simpl in *.
  - eapply frame_trans; [exact Hm | apply Hk].
  - exact Hm.
Qed.

Lemma respects_try_catch {A : Type} (m : M A) (h : exn -> M A) :
  respects R m -> (forall e, respects R (h e)) -> respects R (try_catch m h).
Proof.
  intros Hm Hh s. unfold try_catch. specialize (Hm s).
  destruct (m s) as [[a|e] s1]; simpl in *.
  - exact Hm.
  - eapply frame_trans; [exact Hm | apply Hh].
Qed.

Lemma respects_invoke {A B : Type} (m : member A B) (a : A) (ev : event) :
  (forall s, R s (log ev s)) -> respects R (invoke m a ev).
Proof.
  intros Hlog s. unfold invoke, throw.
  destruct m; simpl; solve [apply frame_refl | apply Hlog].
Qed.

Lemma respects_invoke_new {A : Type} (c : option (A -> outcome built)) (a : A)
      (ev : event) :
  (forall s, R s (log ev s)) -> respects R (invoke_new c a ev).
Proof.
  intros Hlog s. unfold invoke_new, throw.
  destruct c; simpl; solve [apply frame_refl | apply Hlog].
Qed.

Lemma respects_get_supported : respects R get_supported.
Proof. intros s. apply frame_refl. Qed.

Lemma respects_get_cached : respects R get_cached.
Proof. intros s. apply frame_refl. Qed.

End Respects.

Lemma keeps_cache_set_supported (P : event -> bool) (b : option bool) :
  respects (only_calls P) (set_supported b).
Proof.
  intros s. split; [reflexivity|]. exists []. simpl. rewrite app_nil_r.
  split; reflexivity.
Qed.

Lemma keeps_memo_set_cached (l : list object) : respects memo_kept (set_cached l).
Proof. intros s b H. exact H. Qed.

Create HintDb frame.
#[local] Hint Resolve respects_ret respects_throw respects_invoke
  respects_invoke_new respects_get_supported respects_get_cached
  keeps_cache_set_supported keeps_memo_set_cached
  only_calls_log memo_kept_log : frame.
#[local] Hint Extern 1 (Frame _) => typeclasses eauto : frame.
#[local] Hint Extern 1 (_ = true) => reflexivity : frame.

(** Walks a statement: closes what the [frame] hints know, splits
    sequences, and case-splits on what the environment holds. *)
Ltac frame :=
  repeat first
    [ solve [auto with frame]
    | apply respects_bind; [typeclasses eauto| |intros ?]
    | apply respects_try_catch; [typeclasses eauto| |intros ?]
    | match goal with
      | |- respects _ (match ?x with _ => _ end) => destruct x
      | |- respects _ (if ?x then _ else _) => destruct x
      | |- respects _ (let _ := _ in _) => cbv zeta
      end ].

Lemma keeps_detect (env : Env) : respects (only_calls is_query) (detect env).
Proof. unfold detect, read_navigator. frame. Qed.
#[local] Hint Resolve keeps_detect : frame.

Lemma keeps_available (env : Env) : respects (only_calls is_query) (available env).
Proof. unfold available. frame. Qed.
#[local] Hint Resolve keeps_available : frame.

Lemma keeps_site_mode_defined (env : Env) :
  respects (only_calls is_query) (site_mode_defined env).
Proof. unfold site_mode_defined. frame. Qed.
#[local] Hint Resolve keeps_site_mode_defined : frame.

Lemma keeps_permissionStatus (env : Env) :
  respects (only_calls is_query) (permissionStatus env).
Proof. unfold permissionStatus, read_navigator. frame. Qed.

(** *** The memoized answer survives every operation *)

Lemma memo_available (env : Env) : respects memo_kept (available env).
Proof. intros s b H. rewrite (available_cached env s b H). exact H. Qed.
#[local] Hint Resolve memo_available : frame.

Lemma memo_permissionStatus (env : Env) :
  respects memo_kept (permissionStatus env).
Proof. unfold permissionStatus, site_mode_defined, read_navigator. frame. Qed.
#[local] Hint Resolve memo_permissionStatus : frame.

Lemma memo_requestPermission (env : Env) (callback : value) :
  respects memo_kept (requestPermission env callback).
Proof. unfold requestPermission. frame. Qed.

Lemma memo_dismiss (env : Env) (n : object) : respects memo_kept (dismiss env n).
Proof. unfold dismiss. frame. Qed.
#[local] Hint Resolve memo_dismiss : frame.

Lemma memo_write (o : object) : respects memo_kept (write o).
Proof. unfold write. frame. Qed.
#[local] Hint Resolve memo_write : frame.

Lemma memo_forEach_dismiss (env : Env) (todo : list object) :
  respects memo_kept (forEach_dismiss env todo).
Proof.
  induction todo as [|n rest IH]; simpl; frame.
Qed.
#[local] Hint Resolve memo_forEach_dismiss : frame.

Lemma memo_removeAll (env : Env) : respects memo_kept (removeAll env).
Proof. unfold removeAll. frame. Qed.
#[local] Hint Resolve memo_removeAll : frame.

Lemma memo_create (env : Env) (title message icon : value) :
  respects memo_kept (create env title message icon).
Proof. unfold create. frame. Qed.
#[local] Hint Resolve memo_create : frame.

Lemma memo_attach (callbacks notification : value) :
  respects memo_kept (attach callbacks notification).
Proof. unfold attach. frame. Qed.
#[local] Hint Resolve memo_attach : frame.

Lemma memo_send (env : Env) (title message icon callbacks isRemoveAll : value) :
  respects memo_kept (send env title message icon callbacks isRemoveAll).
Proof.
  unfold send. frame.
Qed.

(** ** [available] *)



(** C8. [available()] never raises: it always returns a boolean, and
    when the probe raises (the site-mode query throws or is not a
    function, [navigator] is not declared) the exception is caught,
    [false] is stored and [false] is returned. *)
Theorem available_never_throws (env : Env) (s : state) :
  (exists b s1, available env s = (Ret b, s1)) /\
  (forall e s1,
      supported s = None -> detect env s = (Throw e, s1) ->
      available env s
      = (Ret false,
         {| supported := Some false; cached := cached s1; trace := trace s1 |})).
Proof.
  split.
  - destruct (available_returns env s) as [b [s1 [Hrun _]]]. eauto.
  - intros e s1 Hnull Hd. rewrite (available_fresh env s Hnull), Hd.
    reflexivity.
Qed.

Lemma available_never_throws_witness :
  detect (Sample.explorer (Throw (HostError 3))) pristine
  = (Throw (HostError 3), log CallIsSiteMode pristine) /\
  available (Sample.explorer (Throw (HostError 3))) pristine
  = (Ret false,
     {| supported := Some false; cached := []; trace := [CallIsSiteMode] |}).
Proof.
  split; [reflexivity|].
  exact (proj2 (available_never_throws
                  (Sample.explorer (Throw (HostError 3))) pristine)
               (HostError 3) (log CallIsSiteMode pristine)
               eq_refl eq_refl).
Defined.

(** ** [send] without permission *)

Lemma is_string_spec (t : string) (v : value) :
  is_string t v = true <-> v = VStr t.
Proof.
  destruct v; simpl; split; intros H; try discriminate.
  - apply String.eqb_eq in H. congruence.
  - injection H as ->. apply String.eqb_refl.
Qed.

Lemma not_granted (v : value) :
  v <> PERMISSION_GRANTED -> is_string "granted" v = false.
Proof.
  intros H. destruct (is_string "granted" v) eqn:E; [|reflexivity].
  apply is_string_spec in E. contradiction.
Qed.

Lemma keeps_run {A : Type} (P : event -> bool) (m : M A) (s s' : state)
      (r : outcome A) :
  respects (only_calls P) m -> m s = (r, s') -> only_calls P s s'.
Proof. intros H E. specialize (H s). rewrite E in H. exact H. Qed.

Lemma only_calls_weaken (P Q : event -> bool) (s s' : state) :
  (forall ev, P ev = true -> Q ev = true) ->
  only_calls P s s' -> only_calls Q s s'.
Proof.
  intros HPQ [Hc [evs [Ht Hp]]]. split; [exact Hc|]. exists evs.
  split; [exact Ht|]. rewrite forallb_forall in *. auto.
Qed.

(** C1. When [permissionStatus()] returns anything but ['granted'],
    [send] returns [false] and stops there: it ends in the very state the
    permission query left, so the cached handles are unchanged and the
    only host calls made are permission queries: no notification is
    created and nothing is dismissed, whatever [isRemoveAll] is. *)
Theorem send_refused_without_permission
        (env : Env) (title message icon callbacks isRemoveAll : value)
        (s s1 : state) (status : value) :
  permissionStatus env s = (Ret status, s1) ->
  status <> PERMISSION_GRANTED ->
  send env title message icon callbacks isRemoveAll s = (Ret (VBool false), s1) /\
  cached s1 = cached s /\
  exists evs, trace s1 = trace s ++ evs /\ forallb is_query evs = true.
Proof.
  intros Hq Hng. split.
  - unfold send, bind. rewrite Hq, (not_granted status Hng). reflexivity.
  - exact (keeps_run is_query _ s s1 _ (keeps_permissionStatus env) Hq).
Qed.

Lemma send_refused_without_permission_witness :
  permissionStatus (Sample.explorer (Ret (VBool false)))
                   (Sample.facade None [Sample.handle 1])
  = (Ret PERMISSION_DEFAULT,
     {| supported := Some true; cached := [Sample.handle 1];
        trace := [CallIsSiteMode; CallIsSiteMode; CallIsSiteMode] |}) /\
  PERMISSION_DEFAULT <> PERMISSION_GRANTED /\
  send (Sample.explorer (Ret (VBool false)))
       (VStr "Hi") (VStr "Body") (VStr "icon.png") VUndefined (VBool true)
       (Sample.facade None [Sample.handle 1])
  = (Ret (VBool false),
     {| supported := Some true; cached := [Sample.handle 1];
        trace := [CallIsSiteMode; CallIsSiteMode; CallIsSiteMode] |}).
Proof.
  split; [reflexivity|]. split; [discriminate|].
  apply (send_refused_without_permission
           (Sample.explorer (Ret (VBool false)))
           (VStr "Hi") (VStr "Body") (VStr "icon.png") VUndefined (VBool true)
           (Sample.facade None [Sample.handle 1]) _ PERMISSION_DEFAULT).
  - reflexivity.
  - discriminate.
Defined.

(** ** [permissionStatus] *)

(** What [permissionStatus] does once [available()] has returned. *)
Lemma permissionStatus_after_available (env : Env) (s s1 : state) (b : bool) :
  available env s = (Ret b, s1) ->
  permissionStatus env s =
    (if negb b then ret (VBool false)
     else
       match level_query env with
       | Some api => invoke (permissionLevel api) tt CallPermissionLevel
       | None =>
         match permission_property env with
         | Some api => ret (permission api)
         | None =>
           nav <- read_navigator env ;;
           match nav_mozNotification nav with
           | Some _ => ret PERMISSION_GRANTED
           | None =>
             site <- site_mode_defined env ;;
             match site with
             | Some ext =>
                 active <- invoke (msIsSiteMode ext) tt CallIsSiteMode ;;
                 ret (if truthy active then PERMISSION_GRANTED
                      else PERMISSION_DEFAULT)
             | None => ret (VStr "")
             end
           end
         end
       end) s1.
Proof.
  intros H. unfold permissionStatus at 1. unfold bind at 1. rewrite H.
  reflexivity.
Qed.

(** [permissionStatus] past the two tests on [window.Notification], when
    neither applies. *)
Lemma permissionStatus_without_standard
      (env : Env) (s s1 : state) (nav : Navigator) :
  available env s = (Ret true, s1) ->
  no_level_query env ->
  no_permission_property env ->
  navigator env = Some nav ->
  permissionStatus env s =
    match nav_mozNotification nav with
    | Some _ => (Ret PERMISSION_GRANTED, s1)
    | None =>
        (site <- site_mode_defined env ;;
         match site with
         | Some ext =>
             active <- invoke (msIsSiteMode ext) tt CallIsSiteMode ;;
             ret (if truthy active then PERMISSION_GRANTED
                  else PERMISSION_DEFAULT)
         | None => ret (VStr "")
         end) s1
    end.
Proof.
  unfold no_level_query, no_permission_property. intros Hav Hl Hp Hn.
  rewrite (permissionStatus_after_available env s s1 true Hav). simpl.
  unfold level_query, permission_property, read_navigator.
  destruct (win_Notification env) as [api|].
  - rewrite Hl, Hp, Hn. simpl. unfold bind at 1. unfold ret at 1.
    destruct (nav_mozNotification nav); reflexivity.
  - rewrite Hn. unfold bind at 1. unfold ret at 1.
    destruct (nav_mozNotification nav); reflexivity.
Qed.

(** [send] when the permission query returned something else than
    ['granted'], and when it raised. *)
Lemma send_when_refused
      (env : Env) (title message icon callbacks isRemoveAll : value)
      (s s1 : state) (status : value) :
  permissionStatus env s = (Ret status, s1) ->
  is_string "granted" status = false ->
  send env title message icon callbacks isRemoveAll s = (Ret (VBool false), s1).
Proof. intros Hq Hng. unfold send, bind. rewrite Hq, Hng. reflexivity. Qed.

Lemma send_when_query_raises
      (env : Env) (title message icon callbacks isRemoveAll : value)
      (s s1 : state) (e : exn) :
  permissionStatus env s = (Throw e, s1) ->
  send env title message icon callbacks isRemoveAll s = (Throw e, s1).
Proof. intros Hq. unfold send, bind. rewrite Hq. reflexivity. Qed.

(** C4. [permissionStatus()] does not always return.  When
    [available()] is true, [window.Notification] gives neither a
    permission-level method nor a truthy permission property, there is no
    [navigator.mozNotification], and [window.external] is an object
    without an [msIsSiteMode] function, none of the four backends
    matches, and the unguarded call of line 123 raises a [TypeError]
    instead of the empty status being returned. *)
Theorem permissionStatus_unguarded_site_mode_call
        (env : Env) (s s1 : state) (nav : Navigator) (ext : ExternalApi) :
  available env s = (Ret true, s1) ->
  no_level_query env ->
  no_permission_property env ->
  navigator env = Some nav ->
  nav_mozNotification nav = None ->
  win_external env = Some ext ->
  msIsSiteMode ext = Missing \/ msIsSiteMode ext = NonFunction ->
  permissionStatus env s = (Throw TypeError, s1).
Proof.
  intros Hav Hl Hp Hn Hm Hx Hq.
  rewrite (permissionStatus_without_standard env s s1 nav Hav Hl Hp Hn), Hm.
  unfold site_mode_defined. rewrite Hx. unfold_js.
  destruct Hq as [-> | ->]; reflexivity.
Qed.

Lemma permissionStatus_unguarded_site_mode_call_witness :
  Notify More.old_chrome
  = {| supported := Some true; cached := []; trace := [] |} /\
  available More.old_chrome (Notify More.old_chrome)
  = (Ret true, Notify More.old_chrome) /\
  permissionStatus More.old_chrome (Notify More.old_chrome)
  = (Throw TypeError, Notify More.old_chrome).
Proof.
  split; [reflexivity|]. split; [reflexivity|].
  apply (permissionStatus_unguarded_site_mode_call
           More.old_chrome (Notify More.old_chrome) _
           {| nav_mozNotification := None |}
           {| msIsSiteMode := Missing;
              msSiteModeClearIconOverlay := Missing;
              msSiteModeActivate := Missing;
              msSiteModeSetIconOverlay := Missing |});
    try reflexivity; try exact I.
  left. reflexivity.
Defined.



(** ** [requestPermission] *)

Lemma query_hands_nothing (ev : event) :
  is_query ev = true -> negb (hands_callback ev) = true.
Proof. destruct ev; simpl; intros H; try discriminate; reflexivity. Qed.

(** What [requestPermission] does once [available()] has returned. *)
Lemma requestPermission_after_available
      (env : Env) (callback : value) (s s1 : state) (b : bool) :
  available env s = (Ret b, s1) ->
  requestPermission env callback s =
    (if negb b then ret tt
     else
       match webkit_entry env with
       | Some wk =>
           invoke (webkit_requestPermission wk) (callable_of callback)
                  (CallWebkitRequestPermission (callable_of callback))
       | None =>
         match standard_entry env with
         | Some api =>
             invoke (std_requestPermission api) (callable_of callback)
                    (CallStdRequestPermission (callable_of callback))
         | None => ret tt
         end
       end) s1.
Proof.
  intros H. unfold requestPermission at 1. unfold bind at 1. rewrite H.
  reflexivity.
Qed.

(** [requestPermission(cb)] where the vendor object has
    [checkPermission] and nothing else: no backend exposes a
    permission-request entry point, yet the call raises. *)
Lemma requestPermission_raises_counterexample :
  available More.half_vendor (Notify More.half_vendor)
  = (Ret true, Notify More.half_vendor) /\
  exposes_request_entry More.half_vendor = false /\
  requestPermission More.half_vendor (VFun (UserFn 1))
                    (Notify More.half_vendor)
  = (Throw TypeError, Notify More.half_vendor) /\
  ~ (exists s', requestPermission More.half_vendor (VFun (UserFn 1))
                                  (Notify More.half_vendor)
                = (Ret tt, s')).
Proof.
  split; [reflexivity|]. split; [reflexivity|]. split; [reflexivity|].
  intros [s' H]. vm_compute in H. discriminate H.
Qed.

(** C9, as the code has it. [requestPermission(cb)] returns without
    raising and without handing [cb] (or anything else) to the host when
    [available()] is false, and also when neither of the two entry points
    the source tests for is there
    ([window.webkitNotifications.checkPermission], line 74, and
    [window.Notification.requestPermission], line 86): it ends in the
    state [available()] left, where the only calls made are permission
    queries.  When it does delegate, the function handed over is [cb] if
    [cb] is a function and the no-op otherwise. *)
Theorem requestPermission_without_entry_point
        (env : Env) (cb : value) (s s1 : state) (b : bool) :
  available env s = (Ret b, s1) ->
  (b = false \/ (no_vendor_entry env /\ no_standard_entry env) ->
   requestPermission env cb s = (Ret tt, s1) /\
   cached s1 = cached s /\
   exists evs, trace s1 = trace s ++ evs /\
               forallb (fun ev => negb (hands_callback ev)) evs = true) /\
  (b = true ->
   (forall wk f,
       win_webkitNotifications env = Some wk ->
       present (checkPermission wk) = true ->
       webkit_requestPermission wk = Function f ->
       requestPermission env cb s
       = (f (callable_of cb),
          log (CallWebkitRequestPermission (callable_of cb)) s1)) /\
   (forall api f,
       no_vendor_entry env ->
       win_Notification env = Some api ->
       std_requestPermission api = Function f ->
       requestPermission env cb s
       = (f (callable_of cb),
          log (CallStdRequestPermission (callable_of cb)) s1))) /\
  (typeof cb <> TFunction -> callable_of cb = NoopFn) /\
  (forall f, cb = VFun f \/ (exists props, cb = VFunWith f props) ->
             callable_of cb = f).
Proof.
  intros Hav.
  pose proof (requestPermission_after_available env cb s s1 b Hav) as E.
  assert (Hvendor : no_vendor_entry env -> webkit_entry env = None).
  { unfold no_vendor_entry, webkit_entry.
    destruct (win_webkitNotifications env) as [wk|]; [|reflexivity].
    intros ->. reflexivity. }
  assert (Hstandard : no_standard_entry env -> standard_entry env = None).
  { unfold no_standard_entry, standard_entry.
    destruct (win_Notification env) as [api|]; [|reflexivity].
    intros ->. reflexivity. }
  split; [|split; [|split]].
  - intros Hno. split.
    + rewrite E. destruct Hno as [-> | [Hw Hs]]; [reflexivity|].
      rewrite (Hvendor Hw), (Hstandard Hs). destruct b; reflexivity.
    + apply (only_calls_weaken is_query); [exact query_hands_nothing|].
      exact (keeps_run is_query _ s s1 _ (keeps_available env) Hav).
  - intros ->. simpl in E. split.
    + intros wk f Hw Hc Hf. rewrite E. unfold webkit_entry.
      rewrite Hw, Hc. unfold invoke. rewrite Hf. reflexivity.
    + intros api f Hw Hs Hf. rewrite E, (Hvendor Hw). unfold standard_entry.
      rewrite Hs, Hf. simpl. unfold invoke. rewrite Hf. reflexivity.
  - destruct cb; simpl; intros H; try reflexivity; contradiction.
  - intros f [-> | [props ->]]; reflexivity.
Qed.

Lemma requestPermission_without_entry_point_witness :
  (available Sample.bare pristine
   = (Ret false, {| supported := Some false; cached := []; trace := [] |}) /\
   requestPermission Sample.bare (VFun (UserFn 1)) pristine
   = (Ret tt, {| supported := Some false; cached := []; trace := [] |})) /\
  (available Sample.firefox_mobile pristine
   = (Ret true, {| supported := Some true; cached := []; trace := [] |}) /\
   no_vendor_entry Sample.firefox_mobile /\
   no_standard_entry Sample.firefox_mobile /\
   requestPermission Sample.firefox_mobile (VFun (UserFn 1)) pristine
   = (Ret tt, {| supported := Some true; cached := []; trace := [] |})) /\
  (requestPermission More.chrome (VNum 3) pristine
   = (Ret tt,
      {| supported := Some true; cached := [];
         trace := [CallWebkitRequestPermission NoopFn] |}) /\
   requestPermission (Sample.standard PERMISSION_DEFAULT)
                     (VFun (UserFn 1)) pristine
   = (Ret tt,
      {| supported := Some true; cached := [];
         trace := [CallStdRequestPermission (UserFn 1)] |})).
Proof.
  split; [|split].
  - split; [reflexivity|].
    apply (requestPermission_without_entry_point
             Sample.bare (VFun (UserFn 1)) pristine _ false eq_refl).
    left. reflexivity.
  - split; [reflexivity|]. split; [exact I|]. split; [exact I|].
    apply (requestPermission_without_entry_point
             Sample.firefox_mobile (VFun (UserFn 1)) pristine _ true eq_refl).
    right. split; exact I.
  - split.
    + destruct (requestPermission_without_entry_point
                  More.chrome (VNum 3) pristine _ true eq_refl)
        as [_ [Hdelegates _]].
      exact (proj1 (Hdelegates eq_refl) More.vendor (fun _ => Ret tt)
                   eq_refl eq_refl eq_refl).
    + destruct (requestPermission_without_entry_point
                  (Sample.standard PERMISSION_DEFAULT) (VFun (UserFn 1))
                  pristine _ true eq_refl)
        as [_ [Hdelegates _]].
      exact (proj2 (Hdelegates eq_refl)
                   (Sample.standard_api PERMISSION_DEFAULT) (fun _ => Ret tt)
                   I eq_refl eq_refl).
Defined.

(** The vendor entry point is recognised by [checkPermission] alone
    (line 74) while the call goes to [requestPermission] (line 84): a
    vendor object with the first and without the second makes the call
    raise. *)
Lemma requestPermission_vendor_without_request
      (env : Env) (cb : value) (s s1 : state) (wk : WebkitApi) :
  available env s = (Ret true, s1) ->
  webkit_entry env = Some wk ->
  webkit_requestPermission wk = Missing ->
  requestPermission env cb s = (Throw TypeError, s1).
Proof.
  intros Hav Hw Hm.
  rewrite (requestPermission_after_available env cb s s1 true Hav). simpl.
  rewrite Hw. unfold invoke. rewrite Hm. reflexivity.
Qed.

(** ** [send] with the mobile-vendor backend *)

(** C2. Where [navigator.mozNotification] is the only backend, the one
    [available()] and [permissionStatus()] detect, permission is
    ['granted'] but [send] creates nothing: its creation step looks for
    [window.mozNotification], finds no backend at all, makes no host call
    and leaves the cache as it was, returning [undefined]. *)
Theorem send_mobile_vendor_creates_nothing
        (env : Env) (nav : Navigator) (moz : MozApi)
        (title message icon callbacks : value) (s : state) :
  win_Notification env = None ->
  win_webkitNotifications env = None ->
  win_external env = None ->
  win_mozNotification env = None ->
  navigator env = Some nav ->
  nav_mozNotification nav = Some moz ->
  supported s <> Some false ->
  let s1 := {| supported := Some true; cached := cached s; trace := trace s |} in
  available env s = (Ret true, s1) /\
  permissionStatus env s = (Ret PERMISSION_GRANTED, s1) /\
  send env title message icon callbacks (VBool false) s = (Ret VUndefined, s1).
Proof.
  intros Hn Hw Hx Hwm Hnav Hmoz Hsup s1.
  assert (Hav : available env s = (Ret true, s1)).
  { destruct (supported s) as [[|]|] eqn:E.
    - rewrite (available_cached env s true E). subst s1.
      destruct s; simpl in *; subst; reflexivity.
    - contradiction.
    - rewrite (available_fresh env s E). unfold detect. unfold_js.
      rewrite Hn, Hw, Hnav. simpl. rewrite Hmoz. reflexivity. }
  assert (Hps : permissionStatus env s = (Ret PERMISSION_GRANTED, s1)).
  { rewrite (permissionStatus_after_available env s s1 true Hav). simpl.
    unfold level_query, permission_property. unfold_js.
    rewrite Hn, Hnav. simpl. rewrite Hmoz. reflexivity. }
  repeat split; trivial.
  unfold send. unfold bind at 1. rewrite Hps. simpl.
  unfold create, site_mode_api, attach. unfold_js.
  rewrite Hx, Hw, Hwm, Hn. reflexivity.
Qed.

Lemma send_mobile_vendor_creates_nothing_witness :
  Notify Sample.firefox_mobile
  = {| supported := Some true; cached := []; trace := [] |} /\
  supported (Notify Sample.firefox_mobile) <> Some false /\
  permissionStatus Sample.firefox_mobile (Notify Sample.firefox_mobile)
  = (Ret PERMISSION_GRANTED,
     {| supported := Some true; cached := []; trace := [] |}) /\
  send Sample.firefox_mobile (VStr "Hi") (VStr "Body") (VStr "icon.png")
       VUndefined (VBool false) (Notify Sample.firefox_mobile)
  = (Ret VUndefined, {| supported := Some true; cached := []; trace := [] |}).
Proof.
  split; [reflexivity|]. split; [discriminate|].
  apply (send_mobile_vendor_creates_nothing
           Sample.firefox_mobile
           {| nav_mozNotification := Some Sample.mobile_factory |}
           Sample.mobile_factory
           (VStr "Hi") (VStr "Body") (VStr "icon.png") VUndefined
           (Notify Sample.firefox_mobile));
    try reflexivity.
  discriminate.
Defined.

(** The creation step does reach a mobile-vendor factory published as
    [window.mozNotification], with the arguments in the order (title,
    message, icon). *)
Lemma create_through_window_moz
      (env : Env) (moz : MozApi) (f : value * value * value -> outcome value)
      (title message icon : value) (s : state) :
  site_mode_api env = None ->
  win_webkitNotifications env = None ->
  win_mozNotification env = Some moz ->
  moz_createNotification moz = Function f ->
  create env title message icon s
  = (f (title, message, icon), log (CallMozCreate title message icon) s).
Proof.
  intros Hx Hw Hm Hf. unfold create, invoke. rewrite Hx, Hw, Hm, Hf.
  reflexivity.
Qed.

(** ** [removeAll] *)

Lemma log_all_nil (s : state) : log_all [] s = s.
Proof. destruct s. unfold log_all. simpl. rewrite app_nil_r. reflexivity. Qed.

(** Dismissing a handle only adds host calls to the trace, and neither
    the completion nor the calls depend on the facade's state. *)
Lemma dismiss_run (env : Env) (n : object) (s : state) :
  dismiss env n s
  = (fst (dismiss env n pristine),
     log_all (trace (snd (dismiss env n pristine))) s).
Proof.
  unfold dismiss. unfold_js.
  destruct (close n) as [| |f]; simpl; try (rewrite log_all_nil; reflexivity);
    try reflexivity.
  destruct (cancel n) as [| |g]; simpl; try (rewrite log_all_nil; reflexivity);
    try reflexivity.
  destruct (win_external env) as [ext|]; simpl;
    [|rewrite log_all_nil; reflexivity].
  destruct (msIsSiteMode ext) as [| |q]; simpl;
    try (rewrite log_all_nil; reflexivity).
  destruct (q tt) as [v|e]; simpl; [|reflexivity].
  destruct (truthy v); simpl; [|reflexivity].
  destruct (msSiteModeClearIconOverlay ext) as [| |c]; simpl;
    try reflexivity.
  unfold log, log_all. simpl. rewrite <- app_assoc. reflexivity.
Qed.

Lemma dismiss_detached (env : Env) (n : object) (s : state) :
  dismiss env (detach n) s
  = (dismissal env n, log_all (dismissal_calls env n) s).
Proof. apply dismiss_run. Qed.

Lemma oid_detach (n : object) : oid (detach n) = oid n.
Proof. destruct n. reflexivity. Qed.

Lemma write_object_length (o : object) (l : list object) :
  List.length (write_object o l) = List.length l.
Proof. unfold write_object. apply List.length_map. Qed.

Lemma detach_each_length (visited l : list object) :
  List.length (detach_each visited l) = List.length l.
Proof.
  revert l. induction visited as [|n rest IH]; intros l; simpl;
    [reflexivity|].
  unfold detach_each in IH. rewrite IH. apply write_object_length.
Qed.

Lemma detach_each_app (a b l : list object) :
  detach_each (a ++ b) l = detach_each b (detach_each a l).
Proof. unfold detach_each. apply fold_left_app. Qed.

(** A write leaves alone the entries that are other objects. *)
Lemma write_object_others (o : object) (l : list object) :
  ~ In (oid o) (map oid l) -> write_object o l = l.
Proof.
  induction l as [|x l IH]; simpl; intros H; [reflexivity|].
  destruct (Nat.eqb_spec (oid x) (oid o)) as [E|E].
  - exfalso. apply H. left. exact E.
  - rewrite IH; [reflexivity|]. intros Hin. apply H. right. exact Hin.
Qed.

(** After a write, every entry that is that object reads as written. *)
Lemma write_object_same (o x : object) (l : list object) :
  In x (write_object o l) -> oid x = oid o -> x = o.
Proof.
  unfold write_object. intros Hin Hoid. apply in_map_iff in Hin.
  destruct Hin as [y [Hy _]].
  destruct (Nat.eqb_spec (oid y) (oid o)) as [Ey|Ey].
  - symmetry. exact Hy.
  - subst y. contradiction.
Qed.

(** With no other entry being that object, a write changes one entry. *)
Lemma write_object_apart (o n : object) (before after : list object) :
  oid o = oid n ->
  ~ In (oid n) (map oid before) ->
  ~ In (oid n) (map oid after) ->
  write_object o (before ++ n :: after) = before ++ o :: after.
Proof.
  intros Ho Hb Ha. rewrite <- Ho in Hb, Ha.
  unfold write_object at 1. rewrite map_app. simpl.
  fold (write_object o before). fold (write_object o after).
  rewrite (write_object_others o before Hb), (write_object_others o after Ha).
  rewrite Ho, Nat.eqb_refl. reflexivity.
Qed.

(** In a cache of distinct objects, detaching the visited ones changes
    exactly their entries. *)
Lemma detach_each_distinct (todo : list object) :
  forall before after,
    NoDup (map oid (before ++ todo ++ after)) ->
    detach_each todo (before ++ todo ++ after)
    = before ++ map detach todo ++ after.
Proof.
  induction todo as [|n rest IH]; intros before after Hnd; [reflexivity|].
  simpl.
  assert (Hsplit : NoDup (map oid (before ++ n :: rest ++ after))) by exact Hnd.
  rewrite map_app in Hsplit. simpl in Hsplit.
  pose proof (NoDup_remove_2 _ _ _ Hsplit) as Hnot.
  rewrite (write_object_apart (detach n) n before (rest ++ after)
                              (oid_detach n)).
  - change (before ++ detach n :: rest ++ after)
      with (before ++ [detach n] ++ rest ++ after).
    rewrite app_assoc.
    unfold detach_each in IH. rewrite IH.
    + rewrite <- app_assoc. reflexivity.
    + rewrite <- app_assoc. simpl.
      rewrite map_app. simpl. rewrite oid_detach.
      rewrite map_app in Hnd. exact Hnd.
  - intros Hin. apply Hnot. apply in_or_app. left. exact Hin.
  - intros Hin. apply Hnot. apply in_or_app. right. exact Hin.
Qed.

(** One turn of the [forEach]: the handle is detached, which shows in
    every entry that is that object, then dismissed; the loop goes on
    only if that returned. *)
Lemma forEach_dismiss_step
      (env : Env) (n : object) (rest : list object) (s : state) :
  forEach_dismiss env (n :: rest) s
  = let s' := {| supported := supported s;
                 cached := write_object (detach n) (cached s);
                 trace := trace s ++ dismissal_calls env n |} in
    match dismissal env n with
    | Ret _ => forEach_dismiss env rest s'
    | Throw e => (Throw e, s')
    end.
Proof.
  simpl. unfold write. unfold bind at 1. unfold bind at 1.
  unfold get_cached at 1. unfold set_cached at 1.
  unfold bind at 1. rewrite dismiss_detached. unfold log_all. simpl.
  destruct (dismissal env n); reflexivity.
Qed.

(** The [forEach] when every remaining handle can be dismissed. *)
Lemma forEach_dismiss_all (env : Env) (todo : list object) :
  forall (s : state),
    Forall (fun n => dismissal env n = Ret tt) todo ->
    forEach_dismiss env todo s
    = (Ret tt,
       {| supported := supported s;
          cached := detach_each todo (cached s);
          trace := trace s ++ flat_map (dismissal_calls env) todo |}).
Proof.
  induction todo as [|n rest IH]; intros s Hok.
  - simpl. unfold ret. rewrite app_nil_r. destruct s; reflexivity.
  - inversion Hok as [|? ? Hn Hrest]; subst.
    rewrite (forEach_dismiss_step env n rest s). cbv zeta.
    rewrite Hn, IH; simpl; trivial.
    rewrite <- !app_assoc. reflexivity.
Qed.

(** The [forEach] when the handle after [pre] cannot be dismissed. *)
Lemma forEach_dismiss_stops
      (env : Env) (pre : list object) (n : object) (post : list object)
      (e : exn) :
  forall (s : state),
    Forall (fun m => dismissal env m = Ret tt) pre ->
    dismissal env n = Throw e ->
    forEach_dismiss env (pre ++ n :: post) s
    = (Throw e,
       {| supported := supported s;
          cached := detach_each (pre ++ [n]) (cached s);
          trace := trace s ++ flat_map (dismissal_calls env) pre
                           ++ dismissal_calls env n |}).
Proof.
  induction pre as [|m pre IH]; intros s Hok Hn.
  - change ([] ++ n :: post) with (n :: post).
    rewrite (forEach_dismiss_step env n post s).
    cbv zeta. rewrite Hn. reflexivity.
  - inversion Hok as [|? ? Hm Hpre]; subst.
    change ((m :: pre) ++ n :: post) with (m :: pre ++ n :: post).
    rewrite (forEach_dismiss_step env m (pre ++ n :: post) s).
    cbv zeta. rewrite Hm, IH; simpl; trivial.
    rewrite <- !app_assoc. reflexivity.
Qed.

Lemma removeAll_all (env : Env) (s : state) :
  Forall (fun n => dismissal env n = Ret tt) (cached s) ->
  removeAll env s
  = (Ret tt,
     {| supported := supported s; cached := [];
        trace := trace s ++ flat_map (dismissal_calls env) (cached s) |}).
Proof.
  intros Hok. unfold removeAll. unfold bind at 1. unfold get_cached at 1.
  unfold bind.
  rewrite (forEach_dismiss_all env (cached s) s Hok). reflexivity.
Qed.

Lemma removeAll_stops
      (env : Env) (s : state) (pre : list object) (n : object)
      (post : list object) (e : exn) :
  cached s = pre ++ n :: post ->
  Forall (fun m => dismissal env m = Ret tt) pre ->
  dismissal env n = Throw e ->
  removeAll env s
  = (Throw e,
     {| supported := supported s;
        cached := detach_each (pre ++ [n]) (cached s);
        trace := trace s ++ flat_map (dismissal_calls env) pre
                         ++ dismissal_calls env n |}).
Proof.
  intros Hc Hok Hn. unfold removeAll. unfold bind at 1.
  unfold get_cached at 1. unfold bind. rewrite Hc at 1.
  rewrite (forEach_dismiss_stops env pre n post e s Hok Hn).
  reflexivity.
Qed.

Lemma removeAll_returns_empty (env : Env) (s s' : state) (r : unit) :
  removeAll env s = (Ret r, s') -> cached s' = [].
Proof.
  unfold removeAll. unfold bind at 1. unfold get_cached at 1. unfold bind.
  destruct (forEach_dismiss env (cached s) s) as [[u|e] s2];
    unfold set_cached; intros H; inversion H; reflexivity.
Qed.

Lemma removeAll_on_empty (env : Env) (s : state) :
  cached s = [] -> removeAll env s = (Ret tt, s).
Proof.
  intros Hc. rewrite removeAll_all; rewrite Hc; [|constructor].
  simpl. rewrite app_nil_r. destruct s; simpl in *; subst. reflexivity.
Qed.

(** C6. Whenever [removeAll()] returns, the cache is empty, whatever
    its size was; it does return when every cached handle can be
    dismissed; on an empty cache it returns at once and changes nothing;
    and calling it again after it has returned changes nothing either. *)
Theorem removeAll_empties_cache (env : Env) (s : state) :
  (forall r s', removeAll env s = (Ret r, s') -> cached s' = []) /\
  (Forall (fun n => dismissal env n = Ret tt) (cached s) ->
   exists s', removeAll env s = (Ret tt, s') /\ cached s' = []) /\
  (cached s = [] -> removeAll env s = (Ret tt, s)) /\
  (forall s', removeAll env s = (Ret tt, s') ->
              removeAll env s' = (Ret tt, s')).
Proof.
  split; [|split; [|split]].
  - intros r s'. apply removeAll_returns_empty.
  - intros Hok. rewrite (removeAll_all env s Hok). eauto.
  - apply removeAll_on_empty.
  - intros s' H. apply removeAll_on_empty.
    exact (removeAll_returns_empty env s s' tt H).
Qed.

Lemma removeAll_empties_cache_witness :
  Forall (fun n => dismissal Sample.bare n = Ret tt)
         (cached (Sample.facade (Some true) [Sample.handle 1; Sample.handle 2])) /\
  (exists s',
      removeAll Sample.bare
                (Sample.facade (Some true) [Sample.handle 1; Sample.handle 2])
      = (Ret tt, s') /\ cached s' = []) /\
  removeAll Sample.bare (Sample.facade (Some true) [])
  = (Ret tt, Sample.facade (Some true) []).
Proof.
  assert (Hok : Forall (fun n => dismissal Sample.bare n = Ret tt)
                       [Sample.handle 1; Sample.handle 2]).
  { repeat constructor. }
  split; [exact Hok|]. split.
  - exact (proj1 (proj2 (removeAll_empties_cache
                           Sample.bare
                           (Sample.facade (Some true)
                                          [Sample.handle 1; Sample.handle 2])))
                 Hok).
  - exact (proj1 (proj2 (proj2 (removeAll_empties_cache
                                  Sample.bare (Sample.facade (Some true) []))))
                 eq_refl).
Defined.

(** [removeAll()] on a cache whose first handle raises from [close()]:
    the exception leaves [removeAll], the second handle is never closed
    and both handles are still cached. *)
Lemma removeAll_aborts_counterexample :
  removeAll Sample.bare Sample.jammed
  = (Throw (HostError 7),
     {| supported := Some true;
        cached := [detach (Sample.stuck_handle 1); Sample.handle 2];
        trace := [CallClose (detach (Sample.stuck_handle 1))] |}) /\
  ~ (exists s', removeAll Sample.bare Sample.jammed = (Ret tt, s') /\
                cached s' = []).
Proof.
  split; [reflexivity|].
  intros [s' [H _]]. vm_compute in H. discriminate H.
Qed.

(** C3, as the code has it. [removeAll()] takes the cached handles in
    order and guards nothing.  When every dismissal returns, every handle
    is detached and dismissed and the cache is empty on return.  When the
    dismissal of a handle raises, [removeAll] stops there: the exception
    reaches the caller, the handles after it are neither detached nor
    dismissed, and the cache is not reset: it still holds every handle,
    the visited ones detached (in a cache of distinct objects, exactly
    those). *)
Theorem removeAll_stops_at_first_failure (env : Env) (s : state) :
  (Forall (fun n => dismissal env n = Ret tt) (cached s) ->
   removeAll env s
   = (Ret tt,
      {| supported := supported s; cached := [];
         trace := trace s ++ flat_map (dismissal_calls env) (cached s) |})) /\
  (forall pre n post e,
      cached s = pre ++ n :: post ->
      Forall (fun m => dismissal env m = Ret tt) pre ->
      dismissal env n = Throw e ->
      removeAll env s
      = (Throw e,
         {| supported := supported s;
            cached := detach_each (pre ++ [n]) (cached s);
            trace := trace s ++ flat_map (dismissal_calls env) pre
                             ++ dismissal_calls env n |}) /\
      List.length (detach_each (pre ++ [n]) (cached s))
      = List.length (cached s) /\
      (NoDup (map oid (cached s)) ->
       detach_each (pre ++ [n]) (cached s)
       = map detach pre ++ detach n :: post)).
Proof.
  split.
  - apply removeAll_all.
  - intros pre n post e Hc Hok Hn. split; [|split].
    + apply (removeAll_stops env s pre n post e Hc Hok Hn).
    + apply detach_each_length.
    + intros Hnd. rewrite Hc in *.
      pose proof (detach_each_distinct (pre ++ [n]) [] post) as H.
      simpl in H. rewrite <- app_assoc in H. simpl in H.
      rewrite H; [|exact Hnd].
      rewrite map_app, <- app_assoc. reflexivity.
Qed.

Lemma removeAll_stops_at_first_failure_witness :
  cached (Sample.facade (Some true)
                        [Sample.handle 1; Sample.stuck_handle 2; Sample.handle 3])
  = [Sample.handle 1] ++ Sample.stuck_handle 2 :: [Sample.handle 3] /\
  Forall (fun m => dismissal Sample.bare m = Ret tt) [Sample.handle 1] /\
  dismissal Sample.bare (Sample.stuck_handle 2) = Throw (HostError 7) /\
  removeAll Sample.bare
            (Sample.facade (Some true)
                           [Sample.handle 1; Sample.stuck_handle 2; Sample.handle 3])
  = (Throw (HostError 7),
     {| supported := Some true;
        cached := [detach (Sample.handle 1); detach (Sample.stuck_handle 2);
                   Sample.handle 3];
        trace := [CallClose (detach (Sample.handle 1));
                  CallClose (detach (Sample.stuck_handle 2))] |}).
Proof.
  assert (Hok : Forall (fun m => dismissal Sample.bare m = Ret tt)
                       [Sample.handle 1]).
  { repeat constructor. }
  split; [reflexivity|]. split; [exact Hok|]. split; [reflexivity|].
  exact (proj1 (proj2 (removeAll_stops_at_first_failure
                         Sample.bare
                         (Sample.facade (Some true)
                                        [Sample.handle 1; Sample.stuck_handle 2;
                                         Sample.handle 3]))
                      [Sample.handle 1] (Sample.stuck_handle 2)
                      [Sample.handle 3] (HostError 7) eq_refl Hok eq_refl)).
Defined.

(** ** [send] with permission *)

(** The creation step calls the host but never touches the cache. *)
Lemma keeps_create (env : Env) (title message icon : value) :
  respects (only_calls any_call) (create env title message icon).
Proof. unfold create. frame. Qed.

(** What [send] does once [permissionStatus()] has returned
    ['granted']. *)
Lemma send_after_granted
      (env : Env) (title message icon callbacks isRemoveAll : value)
      (s s1 : state) :
  permissionStatus env s = (Ret PERMISSION_GRANTED, s1) ->
  send env title message icon callbacks isRemoveAll s
  = ((if truthy isRemoveAll then removeAll env else ret tt) ;;
     notification <- create env title message icon ;;
     attach callbacks notification ;;
     ret VUndefined) s1.
Proof.
  intros H. unfold send at 1. unfold bind at 1. rewrite H. reflexivity.
Qed.

(** Pushing a created handle: the slots are written on the object,
    which shows wherever the cache already holds it, and the object goes
    to the end of the cache. *)
Lemma attach_object (callbacks : value) (o : object) (s : state) :
  attach callbacks (VObject o) s
  = (Ret tt,
     {| supported := supported s;
        cached := write_object (wire callbacks o) (cached s)
                  ++ [wire callbacks o];
        trace := trace s |}).
Proof. reflexivity. Qed.

Lemma wire_primitive (callbacks : value) (o : object) :
  is_primitive callbacks = true ->
  wire callbacks o
  = mkObject (oid o) VNull VNull VNull (close o) (cancel o).
Proof.
  intros H. destruct o. destruct callbacks; try discriminate; reflexivity.
Qed.

(** C5. With permission ['granted'] and a truthy [isRemoveAll], [send]
    runs [removeAll()] before anything is created.  If [removeAll()]
    raises, [send] raises the same and creates nothing.  If it returns,
    the creation step starts on an empty cache and keeps it empty while it
    calls the backend, and when the backend hands back a handle object the
    cache holds exactly that one handle when [send] returns. *)
Theorem send_clears_before_creating
        (env : Env) (title message icon callbacks isRemoveAll : value)
        (s s1 : state) :
  permissionStatus env s = (Ret PERMISSION_GRANTED, s1) ->
  truthy isRemoveAll = true ->
  (forall e s2,
      removeAll env s1 = (Throw e, s2) ->
      send env title message icon callbacks isRemoveAll s = (Throw e, s2)) /\
  (forall s2,
      removeAll env s1 = (Ret tt, s2) ->
      cached s2 = [] /\
      send env title message icon callbacks isRemoveAll s
      = (notification <- create env title message icon ;;
         attach callbacks notification ;;
         ret VUndefined) s2 /\
      (forall r s3,
          create env title message icon s2 = (r, s3) -> cached s3 = []) /\
      (forall o s3,
          create env title message icon s2 = (Ret (VObject o), s3) ->
          send env title message icon callbacks isRemoveAll s
          = (Ret VUndefined,
             {| supported := supported s3;
                cached := [wire callbacks o];
                trace := trace s3 |}) /\
          List.length
            (cached (snd (send env title message icon callbacks isRemoveAll s)))
          = 1)).
Proof.
  intros Hps Hflag.
  pose proof (send_after_granted env title message icon callbacks isRemoveAll
                                 s s1 Hps) as E.
  rewrite Hflag in E. split.
  - intros e s2 Hrm. rewrite E. unfold bind at 1. rewrite Hrm. reflexivity.
  - intros s2 Hrm.
    assert (Hempty : cached s2 = [])
      by exact (removeAll_returns_empty env s1 s2 tt Hrm).
    assert (Hsend : send env title message icon callbacks isRemoveAll s
                    = (notification <- create env title message icon ;;
                       attach callbacks notification ;;
                       ret VUndefined) s2).
    { rewrite E. unfold bind at 1. rewrite Hrm. reflexivity. }
    assert (Hkeep : forall r s3,
               create env title message icon s2 = (r, s3) -> cached s3 = []).
    { intros r s3 Hcr.
      destruct (keeps_run any_call _ s2 s3 r
                          (keeps_create env title message icon) Hcr)
        as [Hc _].
      congruence. }
    split; [exact Hempty|]. split; [exact Hsend|]. split; [exact Hkeep|].
    intros o s3 Hcr.
    assert (Hdone : send env title message icon callbacks isRemoveAll s
                    = (Ret VUndefined,
                       {| supported := supported s3;
                          cached := [wire callbacks o];
                          trace := trace s3 |})).
    { rewrite Hsend. unfold bind at 1. rewrite Hcr. unfold bind at 1.
      rewrite attach_object. unfold ret. rewrite (Hkeep _ _ Hcr).
      reflexivity. }
    split; [exact Hdone|]. rewrite Hdone. reflexivity.
Qed.

Lemma send_clears_before_creating_witness :
  permissionStatus (Sample.standard PERMISSION_GRANTED)
                   (Sample.facade (Some true) [Sample.handle 1; Sample.handle 2])
  = (Ret PERMISSION_GRANTED,
     Sample.facade (Some true) [Sample.handle 1; Sample.handle 2]) /\
  truthy (VBool true) = true /\
  send (Sample.standard PERMISSION_GRANTED)
       (VStr "Hi") (VStr "Body") (VStr "icon.png") VUndefined (VBool true)
       (Sample.facade (Some true) [Sample.handle 1; Sample.handle 2])
  = (Ret VUndefined,
     {| supported := Some true;
        cached := [wire VUndefined (Sample.handle 9)];
        trace := [CallClose (detach (Sample.handle 1));
                  CallClose (detach (Sample.handle 2));
                  CallConstruct (VStr "Hi") (VStr "icon.png") (VStr "Body")] |}).
Proof.
  split; [reflexivity|]. split; [reflexivity|].
  destruct (send_clears_before_creating
              (Sample.standard PERMISSION_GRANTED)
              (VStr "Hi") (VStr "Body") (VStr "icon.png") VUndefined
              (VBool true)
              (Sample.facade (Some true) [Sample.handle 1; Sample.handle 2])
              _ eq_refl eq_refl)
    as [_ Hreturns].
  destruct (Hreturns _ eq_refl) as [_ [_ [_ Hcreated]]].
  exact (proj1 (Hcreated (Sample.handle 9) _ eq_refl)).
Defined.

(** ** [send] without callbacks *)

(** C10. With permission ['granted'], once the clearing step (if asked
    for) has returned and the backend has handed back a handle object,
    [send] does not raise when [callbacks] is [undefined], [null] or a
    primitive: it returns, the handle's [onclick], [onclose] and [onshow]
    are [null], and the handle is pushed at the end of the cache.  The
    entries before it are as they were, save those that are this very
    object, which show the same slots. *)
Theorem send_without_callbacks
        (env : Env) (title message icon callbacks isRemoveAll : value)
        (s s1 s2 s3 : state) (o : object) :
  is_primitive callbacks = true ->
  permissionStatus env s = (Ret PERMISSION_GRANTED, s1) ->
  (if truthy isRemoveAll then removeAll env else ret tt) s1 = (Ret tt, s2) ->
  create env title message icon s2 = (Ret (VObject o), s3) ->
  let o' := mkObject (oid o) VNull VNull VNull (close o) (cancel o) in
  send env title message icon callbacks isRemoveAll s
  = (Ret VUndefined,
     {| supported := supported s3;
        cached := write_object o' (cached s2) ++ [o'];
        trace := trace s3 |}) /\
  (~ In (oid o) (map oid (cached s2)) ->
   write_object o' (cached s2) = cached s2) /\
  onclick o' = VNull /\ onclose o' = VNull /\ onshow o' = VNull.
Proof.
  intros Hprim Hps Hclear Hcr o'. split; [|split; [|repeat split]].
  - rewrite (send_after_granted env title message icon callbacks isRemoveAll
                                s s1 Hps).
    unfold bind at 1. rewrite Hclear. unfold bind at 1. rewrite Hcr.
    unfold bind at 1. rewrite attach_object. unfold ret.
    rewrite (wire_primitive callbacks o Hprim).
    destruct (keeps_run any_call _ s2 s3 _
                        (keeps_create env title message icon) Hcr) as [Hc _].
    rewrite Hc. reflexivity.
  - intros Hfresh. apply write_object_others. exact Hfresh.
Qed.

Lemma send_without_callbacks_witness :
  is_primitive VNull = true /\
  send (Sample.standard PERMISSION_GRANTED)
       (VStr "Hi") (VStr "Body") (VStr "icon.png") VNull (VBool false)
       (Sample.facade (Some true) [Sample.handle 1])
  = (Ret VUndefined,
     {| supported := Some true;
        cached := [Sample.handle 1;
                   mkObject 9 VNull VNull VNull (Function (fun _ => Ret tt))
                            Missing];
        trace := [CallConstruct (VStr "Hi") (VStr "icon.png") (VStr "Body")] |}).
Proof.
  split; [reflexivity|].
  exact (proj1 (send_without_callbacks
                  (Sample.standard PERMISSION_GRANTED)
                  (VStr "Hi") (VStr "Body") (VStr "icon.png") VNull
                  (VBool false)
                  (Sample.facade (Some true) [Sample.handle 1])
                  _ _ _ (Sample.handle 9)
                  eq_refl eq_refl eq_refl eq_refl)).
Defined.

(** * Further properties of the facade *)

(** ** What [send] returns and when it raises *)

(** X1. [send] never returns [true]: when it returns, the value is
    [false], exactly when [permissionStatus()] returned something other
    than ['granted'], or [undefined], exactly when it returned
    ['granted'] -- whether or not a notification was created. *)
Theorem send_returns_false_or_undefined
        (env : Env) (title message icon callbacks isRemoveAll : value)
        (s s' : state) (v : value) :
  send env title message icon callbacks isRemoveAll s = (Ret v, s') ->
  (v = VBool false /\
   exists status, permissionStatus env s = (Ret status, s') /\
                  status <> PERMISSION_GRANTED) \/
  (v = VUndefined /\
   exists s1, permissionStatus env s = (Ret PERMISSION_GRANTED, s1)).
Proof.
  unfold send. unfold bind at 1.
  destruct (permissionStatus env s) as [[status|e] s1]; [|discriminate].
  destruct (is_string "granted" status) eqn:Hg; simpl.
  - apply is_string_spec in Hg. subst status. intros H. right.
    unfold bind, ret in H.
    destruct ((if truthy isRemoveAll then removeAll env
               else fun s0 => (Ret tt, s0)) s1) as [[u|e] s2];
      [|discriminate].
    destruct (create env title message icon s2) as [[n|e] s3];
      [|discriminate].
    destruct (attach callbacks n s3) as [[u'|e] s4]; [|discriminate].
    inversion H. split; [reflexivity|]. exists s1. reflexivity.
  - unfold ret. intros H. inversion H; subst. left.
    split; [reflexivity|]. exists status. split; [reflexivity|].
    intros ->. discriminate Hg.
Qed.

Lemma send_returns_false_or_undefined_witness :
  send (Sample.standard PERMISSION_GRANTED)
       (VStr "Hi") (VStr "Body") (VStr "icon.png") VUndefined (VBool false)
       (Sample.facade (Some true) [])
  = (Ret VUndefined,
     {| supported := Some true;
        cached := [wire VUndefined (Sample.handle 9)];
        trace := [CallConstruct (VStr "Hi") (VStr "icon.png") (VStr "Body")] |}) /\
  exists s1,
    permissionStatus (Sample.standard PERMISSION_GRANTED)
                     (Sample.facade (Some true) [])
    = (Ret PERMISSION_GRANTED, s1).
Proof.
  split; [reflexivity|].
  destruct (send_returns_false_or_undefined
              (Sample.standard PERMISSION_GRANTED)
              (VStr "Hi") (VStr "Body") (VStr "icon.png") VUndefined
              (VBool false) (Sample.facade (Some true) []) _ VUndefined eq_refl)
    as [[Hfalse _] | [_ Hgranted]].
  - discriminate Hfalse.
  - exact Hgranted.
Defined.

(** X2. An exception raised while [send] queries the permission (the
    permission-level method raises or is not a function, [navigator] is
    not declared, the site-mode query raises) leaves [send] as it is:
    [send] raises it in the state the query left, with the cache
    unchanged and nothing but permission queries made. *)
Theorem send_propagates_permission_failure
        (env : Env) (title message icon callbacks isRemoveAll : value)
        (s s1 : state) (e : exn) :
  permissionStatus env s = (Throw e, s1) ->
  send env title message icon callbacks isRemoveAll s = (Throw e, s1) /\
  cached s1 = cached s /\
  exists evs, trace s1 = trace s ++ evs /\ forallb is_query evs = true.
Proof.
  intros Hq. split.
  - unfold send, bind. rewrite Hq. reflexivity.
  - exact (keeps_run is_query _ s s1 _ (keeps_permissionStatus env) Hq).
Qed.

Lemma send_propagates_permission_failure_witness :
  permissionStatus More.broken_level (Sample.facade None [Sample.handle 1])
  = (Throw TypeError, Sample.facade (Some true) [Sample.handle 1]) /\
  send More.broken_level (VStr "Hi") (VStr "Body") (VStr "icon.png")
       VUndefined (VBool true) (Sample.facade None [Sample.handle 1])
  = (Throw TypeError, Sample.facade (Some true) [Sample.handle 1]).
Proof.
  split; [reflexivity|].
  exact (proj1 (send_propagates_permission_failure
                  More.broken_level (VStr "Hi") (VStr "Body")
                  (VStr "icon.png") VUndefined (VBool true)
                  (Sample.facade None [Sample.handle 1]) _ TypeError
                  eq_refl)).
Defined.

(** ** Environments that cannot send *)

(** X3. A memoized [false] is final: on a facade that has stored
    "unsupported", in whatever environment the later calls run (one with
    every backend included), [available()] and [permissionStatus()]
    return [false], [send] returns [false] and [requestPermission] does
    nothing, all without a host call or a state change. *)
Theorem unsupported_is_final
        (env : Env) (s : state)
        (title message icon callbacks isRemoveAll cb : value) :
  supported s = Some false ->
  available env s = (Ret false, s) /\
  permissionStatus env s = (Ret (VBool false), s) /\
  send env title message icon callbacks isRemoveAll s = (Ret (VBool false), s) /\
  requestPermission env cb s = (Ret tt, s).
Proof.
  intros H. pose proof (available_cached env s false H) as Hav.
  assert (Hps : permissionStatus env s = (Ret (VBool false), s)).
  { rewrite (permissionStatus_after_available env s s false Hav).
    reflexivity. }
  split; [exact Hav|]. split; [exact Hps|]. split.
  - unfold send. unfold bind at 1. rewrite Hps. reflexivity.
  - rewrite (requestPermission_after_available env cb s s false Hav).
    reflexivity.
Qed.

Lemma unsupported_is_final_witness :
  supported (Notify Sample.bare) = Some false /\
  send (Sample.standard PERMISSION_GRANTED)
       (VStr "Hi") (VStr "Body") (VStr "icon.png") VUndefined (VBool false)
       (Notify Sample.bare)
  = (Ret (VBool false), Notify Sample.bare).
Proof.
  split; [reflexivity|].
  exact (proj1 (proj2 (proj2 (unsupported_is_final
                                (Sample.standard PERMISSION_GRANTED)
                                (Notify Sample.bare)
                                (VStr "Hi") (VStr "Body") (VStr "icon.png")
                                VUndefined (VBool false) VUndefined
                                eq_refl)))).
Defined.

(** X4. Where [window.webkitNotifications] is the only notification API
    (no [window.Notification], no [navigator.mozNotification]),
    [available()] is true but [permissionStatus()] never asks the vendor
    object, whatever permission it would report.  With [window.external]
    absent, or its [msIsSiteMode()] answering [undefined], the status is
    the empty string and [send] returns [false]; with [window.external]
    an object that has no [msIsSiteMode] function, both raise a
    [TypeError].  In every case the vendor factory is never called. *)
Theorem webkit_only_cannot_send
        (env : Env) (wk : WebkitApi) (nav : Navigator)
        (title message icon callbacks isRemoveAll : value) (s : state) :
  win_Notification env = None ->
  win_webkitNotifications env = Some wk ->
  navigator env = Some nav ->
  nav_mozNotification nav = None ->
  supported s <> Some false ->
  let s1 := {| supported := Some true; cached := cached s; trace := trace s |} in
  available env s = (Ret true, s1) /\
  (win_external env = None ->
   permissionStatus env s = (Ret (VStr ""), s1) /\
   send env title message icon callbacks isRemoveAll s
   = (Ret (VBool false), s1)) /\
  (forall ext q,
      win_external env = Some ext ->
      msIsSiteMode ext = Function q -> q tt = Ret VUndefined ->
      permissionStatus env s = (Ret (VStr ""), log CallIsSiteMode s1) /\
      send env title message icon callbacks isRemoveAll s
      = (Ret (VBool false), log CallIsSiteMode s1)) /\
  (forall ext,
      win_external env = Some ext ->
      msIsSiteMode ext = Missing \/ msIsSiteMode ext = NonFunction ->
      permissionStatus env s = (Throw TypeError, s1) /\
      send env title message icon callbacks isRemoveAll s
      = (Throw TypeError, s1)).
Proof.
  intros Hn Hw Hnav Hmoz Hsup s1.
  assert (Hav : available env s = (Ret true, s1)).
  { destruct (supported s) as [[|]|] eqn:E.
    - rewrite (available_cached env s true E). subst s1.
      destruct s; simpl in *; subst; reflexivity.
    - contradiction.
    - rewrite (available_fresh env s E). unfold detect. rewrite Hn, Hw.
      reflexivity. }
  assert (Hl : no_level_query env) by (unfold no_level_query; rewrite Hn; exact I).
  assert (Hp : no_permission_property env)
    by (unfold no_permission_property; rewrite Hn; exact I).
  pose proof (permissionStatus_without_standard env s s1 nav Hav Hl Hp Hnav)
    as Hps.
  rewrite Hmoz in Hps. unfold site_mode_defined in Hps.
  split; [exact Hav|]. split; [|split].
  - intros Hx. rewrite Hx in Hps.
    split; [exact Hps|].
    exact (send_when_refused env _ _ _ _ _ s _ _ Hps eq_refl).
  - intros ext q Hx Hq Hv. rewrite Hx in Hps. unfold_js.
    rewrite Hq, Hv in Hps. simpl in Hps.
    split; [exact Hps|].
    exact (send_when_refused env _ _ _ _ _ s _ _ Hps eq_refl).
  - intros ext Hx Hq. rewrite Hx in Hps. unfold_js.
    assert (E : permissionStatus env s = (Throw TypeError, s1))
      by (destruct Hq as [Hq | Hq]; rewrite Hq in Hps; exact Hps).
    split; [exact E|].
    exact (send_when_query_raises env _ _ _ _ _ s _ _ E).
Qed.

Lemma webkit_only_cannot_send_witness :
  supported (Notify More.webkit_only) <> Some false /\
  send More.webkit_only (VStr "Hi") (VStr "Body") (VStr "icon.png")
       VUndefined (VBool false) (Notify More.webkit_only)
  = (Ret (VBool false),
     {| supported := Some true; cached := []; trace := [] |}) /\
  send More.old_chrome (VStr "Hi") (VStr "Body") (VStr "icon.png")
       VUndefined (VBool false) (Notify More.old_chrome)
  = (Throw TypeError,
     {| supported := Some true; cached := []; trace := [] |}).
Proof.
  split; [discriminate|]. split.
  - apply (webkit_only_cannot_send
             More.webkit_only More.vendor {| nav_mozNotification := None |}
             (VStr "Hi") (VStr "Body") (VStr "icon.png") VUndefined
             (VBool false) (Notify More.webkit_only)
             eq_refl eq_refl eq_refl eq_refl);
      [discriminate | reflexivity].
  - refine (proj2 (proj2 (proj2 (proj2
             (webkit_only_cannot_send
                More.old_chrome More.vendor {| nav_mozNotification := None |}
                (VStr "Hi") (VStr "Body") (VStr "icon.png") VUndefined
                (VBool false) (Notify More.old_chrome)
                eq_refl eq_refl eq_refl eq_refl _))) _ eq_refl
             (or_introl eq_refl)));
      discriminate.
Defined.

(** ** The constructor and the probe *)

(** X5. The probe stops at the first backend it finds: with
    [window.Notification], [window.webkitNotifications] or
    [navigator.mozNotification] present, the first [available()] returns
    [true] and stores it without calling into the host, so a
    [window.external] whose site-mode query would raise is never
    touched. *)
Theorem available_stops_at_first_backend (env : Env) (s : state) :
  supported s = None ->
  (win_Notification env <> None \/
   win_webkitNotifications env <> None \/
   exists nav moz, navigator env = Some nav /\
                   nav_mozNotification nav = Some moz) ->
  available env s
  = (Ret true,
     {| supported := Some true; cached := cached s; trace := trace s |}).
Proof.
  intros Hnull Hsome. rewrite (available_fresh env s Hnull).
  unfold detect. unfold_js.
  destruct (win_Notification env) as [api|]; [reflexivity|].
  destruct (win_webkitNotifications env) as [wk|]; [reflexivity|].
  destruct Hsome as [H | [H | [nav [moz [Hnav Hmoz]]]]]; try contradiction.
  rewrite Hnav. simpl. rewrite Hmoz. reflexivity.
Qed.

Lemma available_stops_at_first_backend_witness :
  supported pristine = None /\
  available More.chrome pristine
  = (Ret true, {| supported := Some true; cached := []; trace := [] |}).
Proof.
  split; [reflexivity|].
  apply (available_stops_at_first_backend More.chrome pristine eq_refl).
  left. discriminate.
Defined.



(** ** What [send] creates and caches *)

Lemma function_or_null_ok (v : value) : slot_ok (function_or_null v) = true.
Proof. destruct v; reflexivity. Qed.

Lemma wire_slots (callbacks : value) (o : object) :
  onclick (wire callbacks o) = function_or_null (prop_onclick callbacks) /\
  onclose (wire callbacks o) = function_or_null (prop_onclose callbacks) /\
  onshow (wire callbacks o) = function_or_null (prop_onshow callbacks) /\
  oid (wire callbacks o) = oid o /\
  close (wire callbacks o) = close o /\
  cancel (wire callbacks o) = cancel o.
Proof. destruct o. repeat split. Qed.

Lemma wire_wired (callbacks : value) (o : object) :
  wired (wire callbacks o) = true.
Proof.
  destruct (wire_slots callbacks o) as [H1 [H2 [H3 _]]].
  unfold wired. rewrite H1, H2, H3, !function_or_null_ok. reflexivity.
Qed.

(** [send] from the creation step on, once the backend has answered. *)
Lemma send_after_create
      (env : Env) (title message icon callbacks isRemoveAll : value)
      (s s1 s2 s3 : state) (r : outcome value) :
  permissionStatus env s = (Ret PERMISSION_GRANTED, s1) ->
  (if truthy isRemoveAll then removeAll env else ret tt) s1 = (Ret tt, s2) ->
  create env title message icon s2 = (r, s3) ->
  cached s3 = cached s2 /\
  send env title message icon callbacks isRemoveAll s
  = match r with
    | Ret notification => (attach callbacks notification ;; ret VUndefined) s3
    | Throw e => (Throw e, s3)
    end.
Proof.
  intros Hps Hclear Hcr. split.
  - exact (proj1 (keeps_run any_call _ s2 s3 r
                            (keeps_create env title message icon) Hcr)).
  - rewrite (send_after_granted env title message icon callbacks isRemoveAll
                                s s1 Hps).
    unfold bind at 1. rewrite Hclear. unfold bind at 1. rewrite Hcr.
    destruct r; reflexivity.
Qed.

(** X7. When the backend hands back a handle object, [send] sets each of
    its three slots on its own: to the property of [callbacks] of that
    name when that is a function, to [null] otherwise, whatever the
    backend had left there and whether [callbacks] is an object or a
    function with properties.  The writes are made on the object itself:
    it goes to the end of the cache, and every entry that was already this
    object shows the new slots; entries that are other objects are
    untouched. *)
Theorem send_wires_callbacks
        (env : Env) (title message icon callbacks isRemoveAll : value)
        (s s1 s2 s3 : state) (o : object) :
  permissionStatus env s = (Ret PERMISSION_GRANTED, s1) ->
  (if truthy isRemoveAll then removeAll env else ret tt) s1 = (Ret tt, s2) ->
  create env title message icon s2 = (Ret (VObject o), s3) ->
  exists o',
    send env title message icon callbacks isRemoveAll s
    = (Ret VUndefined,
       {| supported := supported s3;
          cached := write_object o' (cached s2) ++ [o'];
          trace := trace s3 |}) /\
    (typeof (prop_onclick callbacks) = TFunction ->
     onclick o' = prop_onclick callbacks) /\
    (typeof (prop_onclick callbacks) <> TFunction -> onclick o' = VNull) /\
    (typeof (prop_onclose callbacks) = TFunction ->
     onclose o' = prop_onclose callbacks) /\
    (typeof (prop_onclose callbacks) <> TFunction -> onclose o' = VNull) /\
    (typeof (prop_onshow callbacks) = TFunction ->
     onshow o' = prop_onshow callbacks) /\
    (typeof (prop_onshow callbacks) <> TFunction -> onshow o' = VNull) /\
    oid o' = oid o /\ close o' = close o /\ cancel o' = cancel o /\
    (forall x, In x (write_object o' (cached s2)) -> oid x = oid o ->
               x = o') /\
    (~ In (oid o) (map oid (cached s2)) ->
     write_object o' (cached s2) = cached s2).
Proof.
  intros Hps Hclear Hcr. exists (wire callbacks o).
  destruct (send_after_create env title message icon callbacks isRemoveAll
                              s s1 s2 s3 _ Hps Hclear Hcr) as [Hc Hsend].
  destruct (wire_slots callbacks o) as [H1 [H2 [H3 [H4 [H5 H6]]]]].
  assert (Hfun : forall v, typeof v = TFunction -> function_or_null v = v).
  { intros v Hv. unfold function_or_null. rewrite Hv. reflexivity. }
  assert (Hnull : forall v, typeof v <> TFunction -> function_or_null v = VNull).
  { intros v Hv. unfold function_or_null.
    destruct (typeof v); try reflexivity. contradiction. }
  split.
  { rewrite Hsend. unfold bind. rewrite attach_object. unfold ret.
    rewrite Hc. reflexivity. }
  rewrite H1, H2, H3.
  split; [apply Hfun|]. split; [apply Hnull|].
  split; [apply Hfun|]. split; [apply Hnull|].
  split; [apply Hfun|]. split; [apply Hnull|].
  split; [exact H4|]. split; [exact H5|]. split; [exact H6|]. split.
  - intros x Hin Hoid.
    apply (write_object_same (wire callbacks o) x (cached s2) Hin).
    congruence.
  - intros Hfresh. apply write_object_others. rewrite H4. exact Hfresh.
Qed.

Lemma send_wires_callbacks_witness :
  (exists o',
      send (More.standard_giving (Ret (BuiltObject (More.busy_handle 6))))
           (VStr "Hi") (VStr "Body") (VStr "icon.png") More.click_only
           (VBool false)
           (Sample.facade (Some true) [Sample.handle 1; More.busy_handle 6])
      = (Ret VUndefined,
         {| supported := Some true;
            cached := [Sample.handle 1; o'; o'];
            trace := [CallConstruct (VStr "Hi") (VStr "icon.png")
                                    (VStr "Body")] |}) /\
      onclick o' = VFun (UserFn 1) /\ onclose o' = VNull /\
      onshow o' = VNull) /\
  (exists o',
      send (More.standard_giving (Ret (BuiltObject (More.busy_handle 6))))
           (VStr "Hi") (VStr "Body") (VStr "icon.png") More.closing_function
           (VBool false) (Sample.facade (Some true) [Sample.handle 1])
      = (Ret VUndefined,
         {| supported := Some true;
            cached := [Sample.handle 1; o'];
            trace := [CallConstruct (VStr "Hi") (VStr "icon.png")
                                    (VStr "Body")] |}) /\
      onclick o' = VNull /\ onclose o' = VFun (UserFn 5) /\
      onshow o' = VNull).
Proof.
  split.
  - destruct (send_wires_callbacks
                (More.standard_giving (Ret (BuiltObject (More.busy_handle 6))))
                (VStr "Hi") (VStr "Body") (VStr "icon.png") More.click_only
                (VBool false)
                (Sample.facade (Some true)
                               [Sample.handle 1; More.busy_handle 6])
                _ _ _ (More.busy_handle 6) eq_refl eq_refl eq_refl)
      as [o' [Hsend [Hclick [_ [_ [Hclose [_ [Hshow [Hid _]]]]]]]]].
    exists o'. split.
    + rewrite Hsend. unfold write_object. cbn [map cached app].
      rewrite !Hid. reflexivity.
    + split; [|split].
      * exact (Hclick eq_refl).
      * apply Hclose. discriminate.
      * apply Hshow. discriminate.
  - destruct (send_wires_callbacks
                (More.standard_giving (Ret (BuiltObject (More.busy_handle 6))))
                (VStr "Hi") (VStr "Body") (VStr "icon.png")
                More.closing_function (VBool false)
                (Sample.facade (Some true) [Sample.handle 1])
                _ _ _ (More.busy_handle 6) eq_refl eq_refl eq_refl)
      as [o' [Hsend [_ [Hclick [Hclose [_ [_ [Hshow [Hid _]]]]]]]]].
    exists o'. split.
    + rewrite Hsend. unfold write_object. cbn [map cached app].
      rewrite !Hid. reflexivity.
    + split; [|split].
      * apply Hclick. discriminate.
      * exact (Hclose eq_refl).
      * apply Hshow. discriminate.
Defined.

(** X8. [send] caches only objects.  When the creation step leaves
    something whose [typeof] is not ['object'] (a factory returning
    [undefined], a primitive or a function; a constructor yielding a
    function), [send] returns [undefined] and the cache is as the clearing
    step left it: the notification, if one is on screen, is not tracked.
    When a factory returns [null], the first slot assignment raises a
    [TypeError] out of [send], again with nothing cached. *)
Theorem send_caches_objects_only
        (env : Env) (title message icon callbacks isRemoveAll : value)
        (s s1 s2 s3 : state) (v : value) :
  permissionStatus env s = (Ret PERMISSION_GRANTED, s1) ->
  (if truthy isRemoveAll then removeAll env else ret tt) s1 = (Ret tt, s2) ->
  create env title message icon s2 = (Ret v, s3) ->
  cached s3 = cached s2 /\
  (typeof v <> TObject ->
   send env title message icon callbacks isRemoveAll s = (Ret VUndefined, s3)) /\
  (v = VNull ->
   send env title message icon callbacks isRemoveAll s = (Throw TypeError, s3)).
Proof.
  intros Hps Hclear Hcr.
  destruct (send_after_create env title message icon callbacks isRemoveAll
                              s s1 s2 s3 _ Hps Hclear Hcr) as [Hc Hsend].
  split; [exact Hc|]. split.
  - intros Hty. rewrite Hsend. destruct v; try reflexivity; contradiction.
  - intros ->. rewrite Hsend. reflexivity.
Qed.

Lemma send_caches_objects_only_witness :
  send (More.vendor_giving (Ret VNull))
       (VStr "Hi") (VStr "Body") (VStr "icon.png") VUndefined (VBool false)
       (Sample.facade (Some true) [Sample.handle 1])
  = (Throw TypeError,
     {| supported := Some true;
        cached := [Sample.handle 1];
        trace := [CallWebkitCreate (VStr "icon.png") (VStr "Hi")
                                   (VStr "Body")] |}) /\
  send (More.vendor_giving (Ret VUndefined))
       (VStr "Hi") (VStr "Body") (VStr "icon.png") VUndefined (VBool false)
       (Sample.facade (Some true) [Sample.handle 1])
  = (Ret VUndefined,
     {| supported := Some true;
        cached := [Sample.handle 1];
        trace := [CallWebkitCreate (VStr "icon.png") (VStr "Hi")
                                   (VStr "Body")] |}).
Proof.
  split.
  - exact (proj2 (proj2 (send_caches_objects_only
                           (More.vendor_giving (Ret VNull))
                           (VStr "Hi") (VStr "Body") (VStr "icon.png")
                           VUndefined (VBool false)
                           (Sample.facade (Some true) [Sample.handle 1])
                           _ _ _ VNull eq_refl eq_refl eq_refl))
                 eq_refl).
  - apply (proj1 (proj2 (send_caches_objects_only
                           (More.vendor_giving (Ret VUndefined))
                           (VStr "Hi") (VStr "Body") (VStr "icon.png")
                           VUndefined (VBool false)
                           (Sample.facade (Some true) [Sample.handle 1])
                           _ _ _ VUndefined eq_refl eq_refl eq_refl))).
    discriminate.
Defined.

(** Through the standard constructor the creation step never leaves
    [null], [undefined] or a primitive: [new] raises or yields an object
    or a function. *)
Lemma create_by_constructor
      (env : Env) (api : NotificationApi) (title message icon : value)
      (s s' : state) (v : value) :
  site_mode_api env = None ->
  win_webkitNotifications env = None ->
  win_mozNotification env = None ->
  win_Notification env = Some api ->
  create env title message icon s = (Ret v, s') ->
  (exists o, v = VObject o) \/ (exists f, v = VFun f).
Proof.
  intros Hx Hw Hm Hn. unfold create. rewrite Hx, Hw, Hm, Hn.
  unfold invoke_new, throw. destruct (construct api) as [f|]; [|discriminate].
  destruct (f (title, icon, message)) as [[o|g]|e]; intros E; inversion E;
    eauto.
Qed.

(** ** Which backend [send] uses *)

(** X9. Where [window.external.msIsSiteMode] exists, [send] looks no
    further, whatever other backends are there.  With site mode active it
    clears the icon overlay, activates the window and sets the overlay to
    (icon, message), in this order; the title is not used.  With site mode
    inactive it does nothing more.  Either way no handle is cached and
    [undefined] is returned. *)
Theorem send_draws_overlay
        (env : Env) (ext : ExternalApi)
        (q : unit -> outcome value) (c a : unit -> outcome unit)
        (o : value * value -> outcome unit)
        (title message icon callbacks isRemoveAll : value)
        (s s1 : state) (v : value) :
  permissionStatus env s = (Ret PERMISSION_GRANTED, s1) ->
  truthy isRemoveAll = false ->
  win_external env = Some ext ->
  msIsSiteMode ext = Function q -> q tt = Ret v ->
  msSiteModeClearIconOverlay ext = Function c -> c tt = Ret tt ->
  msSiteModeActivate ext = Function a -> a tt = Ret tt ->
  msSiteModeSetIconOverlay ext = Function o -> o (icon, message) = Ret tt ->
  send env title message icon callbacks isRemoveAll s
  = (Ret VUndefined,
     log_all (if truthy v
              then [CallIsSiteMode; CallClearIconOverlay; CallActivate;
                    CallSetIconOverlay icon message]
              else [CallIsSiteMode]) s1).
Proof.
  intros Hps Hflag Hx Hq Hv Hc Hcv Ha Hav Ho Hov.
  rewrite (send_after_granted env title message icon callbacks isRemoveAll
                              s s1 Hps).
  rewrite Hflag. unfold create, site_mode_api. rewrite Hx, Hq.
  unfold present. unfold_js. rewrite Hq, Hv.
  destruct (truthy v); simpl.
  - rewrite Hc, Hcv, Ha, Hav, Ho, Hov. simpl.
    unfold log, log_all. simpl. rewrite <- !app_assoc. reflexivity.
  - reflexivity.
Qed.

Lemma send_draws_overlay_witness :
  send (Sample.explorer (Ret (VBool true)))
       (VStr "Hi") (VStr "Body") (VStr "icon.png") VUndefined (VBool false)
       (Sample.facade (Some true) [])
  = (Ret VUndefined,
     {| supported := Some true; cached := [];
        trace := [CallIsSiteMode; CallIsSiteMode;
                  CallIsSiteMode; CallClearIconOverlay; CallActivate;
                  CallSetIconOverlay (VStr "icon.png") (VStr "Body")] |}).
Proof.
  exact (send_draws_overlay
           (Sample.explorer (Ret (VBool true)))
           (Sample.site_mode_shell (Ret (VBool true)))
           (fun _ => Ret (VBool true)) (fun _ => Ret tt) (fun _ => Ret tt)
           (fun _ => Ret tt)
           (VStr "Hi") (VStr "Body") (VStr "icon.png") VUndefined (VBool false)
           (Sample.facade (Some true) []) _ (VBool true)
           eq_refl eq_refl eq_refl eq_refl eq_refl eq_refl eq_refl eq_refl
           eq_refl eq_refl eq_refl).
Defined.

(** X10. Without a site-mode API, [send] prefers the vendor factory: it
    calls [window.webkitNotifications.createNotification] with (icon,
    title, message), in that order, and caches the handle it gets, even
    when [window.mozNotification] and the standard constructor are there
    too; neither of those is called.  The handle is pushed last; the
    entries before it are as they were unless they are this very
    object. *)
Theorem send_prefers_vendor_factory
        (env : Env) (wk : WebkitApi)
        (f : value * value * value -> outcome value) (o : object)
        (title message icon callbacks isRemoveAll : value) (s s1 : state) :
  permissionStatus env s = (Ret PERMISSION_GRANTED, s1) ->
  truthy isRemoveAll = false ->
  site_mode_api env = None ->
  win_webkitNotifications env = Some wk ->
  webkit_createNotification wk = Function f ->
  f (icon, title, message) = Ret (VObject o) ->
  send env title message icon callbacks isRemoveAll s
  = (Ret VUndefined,
     {| supported := supported s1;
        cached := write_object (wire callbacks o) (cached s1)
                  ++ [wire callbacks o];
        trace := trace s1 ++ [CallWebkitCreate icon title message] |}) /\
  (~ In (oid o) (map oid (cached s1)) ->
   write_object (wire callbacks o) (cached s1) = cached s1).
Proof.
  intros Hps Hflag Hx Hw Hf Hv. split.
  - rewrite (send_after_granted env title message icon callbacks isRemoveAll
                                s s1 Hps).
    rewrite Hflag. unfold create. rewrite Hx, Hw.
    unfold bind at 1. unfold ret at 1. unfold bind at 1. unfold invoke.
    rewrite Hf, Hv. unfold bind at 1. rewrite attach_object. reflexivity.
  - intros Hfresh. apply write_object_others.
    rewrite (proj1 (proj2 (proj2 (proj2 (wire_slots callbacks o))))).
    exact Hfresh.
Qed.

Lemma send_prefers_vendor_factory_witness :
  send More.chrome (VStr "Hi") (VStr "Body") (VStr "icon.png") VUndefined
       (VBool false) (Notify More.chrome)
  = (Ret VUndefined,
     {| supported := Some true;
        cached := [wire VUndefined (Sample.handle 4)];
        trace := [CallWebkitCreate (VStr "icon.png") (VStr "Hi")
                                   (VStr "Body")] |}).
Proof.
  exact (proj1 (send_prefers_vendor_factory
                  More.chrome More.vendor
                  (fun _ => Ret (VObject (Sample.handle 4))) (Sample.handle 4)
                  (VStr "Hi") (VStr "Body") (VStr "icon.png") VUndefined
                  (VBool false) (Notify More.chrome) _
                  eq_refl eq_refl eq_refl eq_refl eq_refl eq_refl)).
Defined.

Lemma create_site_mode_no_handle
      (env : Env) (ext : ExternalApi) (title message icon : value)
      (s s' : state) (r : outcome value) :
  site_mode_api env = Some ext ->
  create env title message icon s = (r, s') ->
  r = Ret VUndefined \/ exists e, r = Throw e.
Proof.
  intros Hx. unfold create. rewrite Hx. unfold_js.
  assert (Hend : forall (x : outcome value),
             x = Throw TypeError \/ x = Ret VUndefined \/ (exists e, x = Throw e) ->
             forall t, (x, t) = (r, s') ->
             r = Ret VUndefined \/ exists e, r = Throw e).
  { intros x [-> | [-> | [e ->]]] t E; inversion E; eauto. }
  destruct (msIsSiteMode ext) as [| |q]; [eapply Hend; eauto ..|].
  destruct (q tt) as [v|e]; [|eapply Hend; eauto].
  destruct (truthy v); [|eapply Hend; eauto].
  destruct (msSiteModeClearIconOverlay ext) as [| |c];
    [eapply Hend; eauto ..|].
  destruct (c tt) as [u1|e1]; [|eapply Hend; eauto].
  destruct (msSiteModeActivate ext) as [| |act]; [eapply Hend; eauto ..|].
  destruct (act tt) as [u2|e2]; [|eapply Hend; eauto].
  destruct (msSiteModeSetIconOverlay ext) as [| |o];
    [eapply Hend; eauto ..|].
  destruct (o (icon, message)) as [u3|e3]; eapply Hend; eauto.
Qed.

Lemma send_site_mode_keeps_empty
      (env : Env) (ext : ExternalApi)
      (title message icon callbacks isRemoveAll : value) (s : state) :
  site_mode_api env = Some ext ->
  cached s = [] ->
  cached (snd (send env title message icon callbacks isRemoveAll s)) = [].
Proof.
  intros Hx Hempty. unfold send. unfold bind at 1.
  destruct (permissionStatus env s) as [[status|e] s1] eqn:Hps;
    pose proof (proj1 (keeps_run is_query _ s s1 _
                                 (keeps_permissionStatus env) Hps)) as Hc1;
    [|simpl; congruence].
  destruct (is_string "granted" status); simpl; [|congruence].
  assert (Hclear : (if truthy isRemoveAll then removeAll env else ret tt) s1
                   = (Ret tt, s1)).
  { destruct (truthy isRemoveAll); [|reflexivity].
    apply removeAll_on_empty. congruence. }
  unfold bind at 1. rewrite Hclear. unfold bind at 1.
  destruct (create env title message icon s1) as [r s3] eqn:Hcr.
  pose proof (proj1 (keeps_run any_call _ s1 s3 r
                               (keeps_create env title message icon) Hcr))
    as Hc3.
  destruct (create_site_mode_no_handle env ext title message icon s1 s3 r
                                       Hx Hcr) as [-> | [e ->]];
    simpl; congruence.
Qed.

(** X11. Where [window.external.msIsSiteMode] exists the facade never
    tracks anything: starting from an empty cache, after any number of
    [send] calls (whatever their arguments and however each completes) the
    cache is still empty, so a following [removeAll()] returns without
    calling into the host: it does not clear the overlay that [send]
    drew. *)
Theorem site_mode_never_tracks
        (env : Env) (ext : ExternalApi) (reqs : list request) (s : state) :
  site_mode_api env = Some ext ->
  cached s = [] ->
  cached (send_each env reqs s) = [] /\
  removeAll env (send_each env reqs s) = (Ret tt, send_each env reqs s).
Proof.
  intros Hx. revert s.
  assert (H : forall s, cached s = [] -> cached (send_each env reqs s) = []).
  { induction reqs as [|r rest IH]; intros s Hempty; simpl; [exact Hempty|].
    apply IH. unfold send_request.
    exact (send_site_mode_keeps_empty env ext _ _ _ _ _ s Hx Hempty). }
  intros s Hempty. split; [exact (H s Hempty)|].
  apply removeAll_on_empty. exact (H s Hempty).
Qed.

Lemma site_mode_never_tracks_witness :
  cached (Notify (Sample.explorer (Ret (VBool true)))) = [] /\
  trace (send_each (Sample.explorer (Ret (VBool true)))
                   [More.hello (VBool false)]
                   (Notify (Sample.explorer (Ret (VBool true)))))
  = [CallIsSiteMode; CallIsSiteMode; CallIsSiteMode;
     CallIsSiteMode; CallClearIconOverlay; CallActivate;
     CallSetIconOverlay (VStr "icon.png") (VStr "Body")] /\
  removeAll (Sample.explorer (Ret (VBool true)))
            (send_each (Sample.explorer (Ret (VBool true)))
                       [More.hello (VBool false)]
                       (Notify (Sample.explorer (Ret (VBool true)))))
  = (Ret tt,
     send_each (Sample.explorer (Ret (VBool true)))
               [More.hello (VBool false)]
               (Notify (Sample.explorer (Ret (VBool true))))).
Proof.
  split; [reflexivity|]. split; [reflexivity|].
  exact (proj2 (site_mode_never_tracks
                  (Sample.explorer (Ret (VBool true)))
                  (Sample.site_mode_shell (Ret (VBool true)))
                  [More.hello (VBool false)]
                  (Notify (Sample.explorer (Ret (VBool true))))
                  eq_refl eq_refl)).
Defined.

(** ** [removeAll] and the handles it dismisses *)

#[local] Instance calls_only_frame (P : event -> bool) : Frame (calls_only P).
Proof.
  split.
  - intros s. exists []. rewrite app_nil_r. split; reflexivity.
  - intros s1 s2 s3 [e1 [Ht1 Hp1]] [e2 [Ht2 Hp2]].
    exists (e1 ++ e2). rewrite Ht2, Ht1, app_assoc. split; [reflexivity|].
    rewrite forallb_app, Hp1, Hp2. reflexivity.
Qed.

#[local] Instance carries_frame (I : state -> Prop) : Frame (carries I).
Proof. split; unfold carries; auto. Qed.

Lemma calls_only_log (P : event -> bool) (ev : event) (s : state) :
  P ev = true -> calls_only P s (log ev s).
Proof.
  intros H. exists [ev]. simpl. rewrite H. split; reflexivity.
Qed.

Lemma calls_only_set_cached (P : event -> bool) (l : list object) :
  respects (calls_only P) (set_cached l).
Proof.
  intros s. exists []. simpl. rewrite app_nil_r. split; reflexivity.
Qed.

Lemma calls_only_of_only_calls {A : Type} (P : event -> bool) (m : M A) :
  respects (only_calls P) m -> respects (calls_only P) m.
Proof. intros H s. exact (proj2 (H s)). Qed.

Lemma respects_weaken {A : Type} (P Q : event -> bool) (m : M A) :
  (forall ev, P ev = true -> Q ev = true) ->
  respects (only_calls P) m -> respects (only_calls Q) m.
Proof. intros HPQ H s. exact (only_calls_weaken P Q _ _ HPQ (H s)). Qed.

Lemma onclose_detach (n : object) : onclose (detach n) = VNull.
Proof. destruct n. reflexivity. Qed.

Lemma close_detach (n : object) : close (detach n) = close n.
Proof. destruct n. reflexivity. Qed.

Lemma cancel_detach (n : object) : cancel (detach n) = cancel n.
Proof. destruct n. reflexivity. Qed.

Lemma detached_dismiss (env : Env) (n : object) :
  respects (calls_only detached_target) (dismiss env (detach n)).
Proof.
  assert (Hclose : detached_target (CallClose (detach n)) = true)
    by (simpl; rewrite onclose_detach; reflexivity).
  assert (Hcancel : detached_target (CallCancel (detach n)) = true)
    by (simpl; rewrite onclose_detach; reflexivity).
  unfold dismiss.
  repeat first
    [ apply respects_invoke;
      [typeclasses eauto | intros s; apply calls_only_log; first
         [exact Hclose | exact Hcancel | reflexivity]]
    | apply respects_ret; typeclasses eauto
    | apply respects_bind; [typeclasses eauto| |intros ?]
    | match goal with
      | |- respects _ (match ?x with _ => _ end) => destruct x
      | |- respects _ (if ?x then _ else _) => destruct x
      end ].
Qed.

Lemma calls_only_write (P : event -> bool) (o : object) :
  respects (calls_only P) (write o).
Proof.
  unfold write. apply respects_bind; [typeclasses eauto| |intros l].
  - apply respects_get_cached. typeclasses eauto.
  - apply calls_only_set_cached.
Qed.

Lemma detached_forEach (env : Env) (todo : list object) :
  respects (calls_only detached_target) (forEach_dismiss env todo).
Proof.
  induction todo as [|n rest IH]; simpl.
  - apply respects_ret. typeclasses eauto.
  - apply respects_bind; [typeclasses eauto| |intros _].
    { apply calls_only_write. }
    apply respects_bind; [typeclasses eauto| |intros _].
    { apply detached_dismiss. }
    apply IH.
Qed.

Lemma detached_removeAll (env : Env) :
  respects (calls_only detached_target) (removeAll env).
Proof.
  unfold removeAll.
  apply respects_bind; [typeclasses eauto| |intros l].
  { apply respects_get_cached. typeclasses eauto. }
  apply respects_bind; [typeclasses eauto| |intros _].
  { apply detached_forEach. }
  apply calls_only_set_cached.
Qed.

Lemma detached_attach (callbacks notification : value) :
  respects (calls_only detached_target) (attach callbacks notification).
Proof.
  unfold attach. destruct (typeof notification);
    try (apply respects_ret; typeclasses eauto).
  destruct notification;
    try (apply respects_throw; typeclasses eauto).
  apply respects_bind; [typeclasses eauto| |intros _].
  { apply calls_only_write. }
  apply respects_bind; [typeclasses eauto| |intros l].
  - apply respects_get_cached. typeclasses eauto.
  - apply calls_only_set_cached.
Qed.

(** X12. Neither [removeAll] nor [send] ever calls [close()] or
    [cancel()] on a handle whose [onclose] is still set: in every
    dismissal call they make, however they complete, the target's
    [onclose] is [null], so the caller's close handler is not run by a
    programmatic dismissal. *)
Theorem dismissals_are_detached
        (env : Env) (title message icon callbacks isRemoveAll : value)
        (s : state) :
  (exists evs,
      trace (snd (removeAll env s)) = trace s ++ evs /\
      forallb detached_target evs = true) /\
  (exists evs,
      trace (snd (send env title message icon callbacks isRemoveAll s))
      = trace s ++ evs /\
      forallb detached_target evs = true).
Proof.
  split.
  - exact (detached_removeAll env s).
  - assert (Hquery : forall ev, is_query ev = true -> detached_target ev = true)
      by (intros ev; destruct ev; simpl; intros H; try discriminate; reflexivity).
    assert (Hany : respects (calls_only detached_target)
                            (create env title message icon)).
    { unfold create.
      repeat first
        [ apply respects_invoke;
          [typeclasses eauto | intros s0; apply calls_only_log; reflexivity]
        | apply respects_invoke_new;
          [typeclasses eauto | intros s0; apply calls_only_log; reflexivity]
        | apply respects_ret; typeclasses eauto
        | apply respects_bind; [typeclasses eauto| |intros ?]
        | match goal with
          | |- respects _ (match ?x with _ => _ end) => destruct x
          | |- respects _ (if ?x then _ else _) => destruct x
          end ]. }
    assert (Hsend : respects (calls_only detached_target)
                             (send env title message icon callbacks isRemoveAll)).
    { unfold send.
      apply respects_bind; [typeclasses eauto| |intros status].
      { apply calls_only_of_only_calls.
        apply (respects_weaken is_query); [exact Hquery|].
        apply keeps_permissionStatus. }
      destruct (negb (is_string "granted" status));
        [apply respects_ret; typeclasses eauto|].
      apply respects_bind; [typeclasses eauto| |intros _].
      { destruct (truthy isRemoveAll);
          [apply detached_removeAll | apply respects_ret; typeclasses eauto]. }
      apply respects_bind; [typeclasses eauto| |intros notification].
      { exact Hany. }
      apply respects_bind; [typeclasses eauto| |intros _].
      { apply detached_attach. }
      apply respects_ret. typeclasses eauto. }
    exact (Hsend s).
Qed.

Lemma closable_dismissal (env : Env) (n : object) :
  closable n ->
  dismissal env n = Ret tt /\ dismissal_calls env n = [dismiss_call n].
Proof.
  unfold dismissal, dismissal_calls, dismiss_call, dismiss.
  rewrite close_detach, cancel_detach. unfold_js.
  intros [[f [Hf Hr]] | [Hc [g [Hg Hr]]]].
  - rewrite Hf. simpl. rewrite Hr. split; reflexivity.
  - rewrite Hc, Hg. simpl. rewrite Hr. split; reflexivity.
Qed.

Lemma flat_map_closable (env : Env) (l : list object) :
  Forall closable l ->
  flat_map (dismissal_calls env) l = map dismiss_call l.
Proof.
  induction 1 as [|n rest Hn _ IH]; simpl; [reflexivity|].
  rewrite (proj2 (closable_dismissal env n Hn)), IH. reflexivity.
Qed.

(** X13. When every cached handle can be dismissed by its preferred
    method ([close] if it has one, [cancel] only if it has no [close]) and
    that method returns, [removeAll()] makes exactly one call per handle,
    in cache order, on the detached handle, and leaves the cache empty.
    [cancel] is never called on a handle that has [close], and
    [window.external] is not consulted, whatever the environment. *)
Theorem removeAll_dismisses_each_once (env : Env) (s : state) :
  Forall closable (cached s) ->
  removeAll env s
  = (Ret tt,
     {| supported := supported s;
        cached := [];
        trace := trace s ++ map dismiss_call (cached s) |}).
Proof.
  intros Hall. rewrite removeAll_all.
  - rewrite (flat_map_closable env (cached s) Hall). reflexivity.
  - apply Forall_impl with (P := closable); [|exact Hall].
    intros n Hn. exact (proj1 (closable_dismissal env n Hn)).
Qed.

Lemma removeAll_dismisses_each_once_witness :
  Forall closable [More.busy_handle 1; More.legacy_handle 2] /\
  removeAll More.chrome
            (Sample.facade (Some true)
                           [More.busy_handle 1; More.legacy_handle 2])
  = (Ret tt,
     {| supported := Some true;
        cached := [];
        trace := [CallClose (detach (More.busy_handle 1));
                  CallCancel (detach (More.legacy_handle 2))] |}).
Proof.
  assert (Hall : Forall closable [More.busy_handle 1; More.legacy_handle 2]).
  { constructor; [|constructor; [|constructor]].
    - left. exists (fun _ => Ret tt). split; reflexivity.
    - right. split; [reflexivity|]. exists (fun _ => Ret tt).
      split; reflexivity. }
  split; [exact Hall|].
  exact (removeAll_dismisses_each_once
           More.chrome
           (Sample.facade (Some true)
                          [More.busy_handle 1; More.legacy_handle 2])
           Hall).
Defined.

(** ** What holds of every facade *)

Lemma carries_of_only_calls {A : Type} (P : event -> bool) (m : M A) :
  respects (only_calls P) m -> respects (carries cache_sound) m.
Proof.
  intros H s Hw. unfold cache_sound, cache_wired in *.
  rewrite (proj1 (H s)). exact Hw.
Qed.

Lemma wired_detach (n : object) : wired n = true -> wired (detach n) = true.
Proof.
  destruct n. unfold wired. simpl. intros H.
  apply andb_true_iff in H. destruct H as [H Hshow].
  apply andb_true_iff in H. destruct H as [Hclick _].
  rewrite Hclick, Hshow. reflexivity.
Qed.

Lemma wired_write_object (o : object) (l : list object) :
  wired o = true -> forallb wired l = true ->
  forallb wired (write_object o l) = true.
Proof.
  intros Ho. induction l as [|x l IH]; simpl; intros Hl; [reflexivity|].
  apply andb_true_iff in Hl. destruct Hl as [Hx Hl].
  rewrite (IH Hl). destruct (Nat.eqb (oid x) (oid o)).
  - rewrite Ho. reflexivity.
  - rewrite Hx. reflexivity.
Qed.

(** After a write, an entry that is another object is an entry that was
    there. *)
Lemma write_object_other_in (o x : object) (l : list object) :
  In x (write_object o l) -> oid x <> oid o -> In x l.
Proof.
  unfold write_object. intros Hin Hoid. apply in_map_iff in Hin.
  destruct Hin as [y [Hy Hyl]].
  destruct (Nat.eqb_spec (oid y) (oid o)) as [Ey|Ey].
  - subst x. contradiction.
  - subst y. exact Hyl.
Qed.

Lemma coherent_write_object (o : object) (l : list object) :
  coherent l -> coherent (write_object o l).
Proof.
  intros Hl x y Hx Hy Hxy.
  destruct (Nat.eq_dec (oid x) (oid o)) as [E|E].
  - rewrite (write_object_same o x l Hx E).
    rewrite (write_object_same o y l Hy); [reflexivity | congruence].
  - apply Hl; [| |exact Hxy].
    + exact (write_object_other_in o x l Hx E).
    + apply (write_object_other_in o y l Hy). congruence.
Qed.

Lemma coherent_push (o : object) (l : list object) :
  coherent l -> coherent (write_object o l ++ [o]).
Proof.
  intros Hl x y Hx Hy Hxy.
  apply in_app_or in Hx. apply in_app_or in Hy.
  destruct Hx as [Hx | [<- | []]]; destruct Hy as [Hy | [<- | []]].
  - exact (coherent_write_object o l Hl x y Hx Hy Hxy).
  - exact (write_object_same o x l Hx Hxy).
  - symmetry. apply (write_object_same o y l Hy). congruence.
  - reflexivity.
Qed.

Lemma sound_write (o : object) :
  wired o = true -> respects (carries cache_sound) (write o).
Proof.
  intros Ho s [Hw Hc]. split.
  - exact (wired_write_object o (cached s) Ho Hw).
  - exact (coherent_write_object o (cached s) Hc).
Qed.

Lemma keeps_dismiss (env : Env) (n : object) :
  respects (only_calls any_call) (dismiss env n).
Proof. unfold dismiss. frame. Qed.

Lemma sound_forEach (env : Env) (todo : list object) :
  forallb wired todo = true ->
  respects (carries cache_sound) (forEach_dismiss env todo).
Proof.
  induction todo as [|n rest IH]; intros Htodo; simpl.
  - apply respects_ret. typeclasses eauto.
  - simpl in Htodo. apply andb_true_iff in Htodo.
    destruct Htodo as [Hn Hrest].
    apply respects_bind; [typeclasses eauto| |intros _].
    { apply sound_write. apply wired_detach. exact Hn. }
    apply respects_bind; [typeclasses eauto| |intros _].
    { apply (carries_of_only_calls any_call). apply keeps_dismiss. }
    apply IH. exact Hrest.
Qed.

Lemma sound_removeAll (env : Env) : respects (carries cache_sound) (removeAll env).
Proof.
  intros s Hs. unfold removeAll. unfold bind at 1. unfold get_cached at 1.
  unfold bind.
  pose proof (sound_forEach env (cached s) (proj1 Hs) s Hs) as H.
  destruct (forEach_dismiss env (cached s) s) as [[u|e] s1]; simpl in *.
  - split; [reflexivity | intros x y []].
  - exact H.
Qed.

Lemma sound_attach (callbacks notification : value) :
  respects (carries cache_sound) (attach callbacks notification).
Proof.
  intros s [Hw Hc]. unfold attach.
  destruct notification; simpl; try (split; assumption).
  split.
  - unfold cache_wired in *. simpl. rewrite forallb_app.
    rewrite (wired_write_object _ _ (wire_wired callbacks o) Hw). simpl.
    rewrite wire_wired. reflexivity.
  - simpl. apply coherent_push. exact Hc.
Qed.

Lemma sound_send
      (env : Env) (title message icon callbacks isRemoveAll : value) :
  respects (carries cache_sound)
           (send env title message icon callbacks isRemoveAll).
Proof.
  unfold send.
  apply respects_bind; [typeclasses eauto| |intros status].
  { apply (carries_of_only_calls is_query). apply keeps_permissionStatus. }
  destruct (negb (is_string "granted" status));
    [apply respects_ret; typeclasses eauto|].
  apply respects_bind; [typeclasses eauto| |intros _].
  { destruct (truthy isRemoveAll);
      [apply sound_removeAll | apply respects_ret; typeclasses eauto]. }
  apply respects_bind; [typeclasses eauto| |intros notification].
  { apply (carries_of_only_calls any_call). apply keeps_create. }
  apply respects_bind; [typeclasses eauto| |intros _].
  { apply sound_attach. }
  apply respects_ret. typeclasses eauto.
Qed.

Lemma keeps_requestPermission (env : Env) (callback : value) :
  respects (only_calls quiet) (requestPermission env callback).
Proof.
  assert (Hav : respects (only_calls quiet) (available env)).
  { apply (respects_weaken is_query); [|apply keeps_available].
    intros ev. destruct ev; simpl; intros H; try discriminate; reflexivity. }
  unfold requestPermission.
  apply respects_bind; [typeclasses eauto|exact Hav|intros ok].
  frame.
Qed.

Lemma Notify_memo (env : Env) : exists b, supported (Notify env) = Some b.
Proof.
  unfold Notify. simpl.
  destruct (available_returns env {| supported := None; cached := [];
                                     trace := [] |}) as [b [s1 [Hrun Hsup]]].
  rewrite Hrun. simpl. eauto.
Qed.

(** X14. Three facts hold of every state a facade can reach from its
    constructor, through any sequence of its five operations, in any
    environments and however each call completes: an answer is memoized
    ([supported] is never [null] again); every cached handle has each of
    its three callback slots holding a function or [null]; and cache
    entries with the same identity read the same, as entries that are one
    object must. *)
Theorem reachable_invariant (s : state) :
  reachable s ->
  (exists b, supported s = Some b) /\ cache_wired s /\ coherent (cached s).
Proof.
  change (reachable s -> (exists b, supported s = Some b) /\ cache_sound s).
  induction 1 as [env
                 |env s Hr [[b Hb] Hw]
                 |env cb s Hr [[b Hb] Hw]
                 |env s Hr [[b Hb] Hw]
                 |env r s Hr [[b Hb] Hw]
                 |env s Hr [[b Hb] Hw]].
  - split; [apply Notify_memo|]. split; [reflexivity | intros x y []].
  - split; [exists b; exact (memo_available env s b Hb)|].
    exact (carries_of_only_calls is_query _ (keeps_available env) s Hw).
  - split; [exists b; exact (memo_requestPermission env cb s b Hb)|].
    exact (carries_of_only_calls quiet _ (keeps_requestPermission env cb) s Hw).
  - split; [exists b; exact (memo_permissionStatus env s b Hb)|].
    exact (carries_of_only_calls is_query _ (keeps_permissionStatus env) s Hw).
  - split; [exists b; exact (memo_send env _ _ _ _ _ s b Hb)|].
    exact (sound_send env _ _ _ _ _ s Hw).
  - split; [exists b; exact (memo_removeAll env s b Hb)|].
    exact (sound_removeAll env s Hw).
Qed.

Lemma reachable_invariant_witness :
  reachable
    (snd (removeAll More.chrome
            (snd (send_request
                    (More.standard_giving
                       (Ret (BuiltObject (More.busy_handle 6))))
                    (More.hello (VBool false))
                    (Notify More.chrome))))) /\
  cache_wired
    (snd (send_request
            (More.standard_giving (Ret (BuiltObject (More.busy_handle 6))))
            (More.hello (VBool false))
            (Notify More.chrome))).
Proof.
  assert (Hsent : reachable
            (snd (send_request
                    (More.standard_giving
                       (Ret (BuiltObject (More.busy_handle 6))))
                    (More.hello (VBool false))
                    (Notify More.chrome)))).
  { apply reach_send. apply reach_Notify. }
  split.
  - apply reach_removeAll. exact Hsent.
  - exact (proj1 (proj2 (reachable_invariant _ Hsent))).
Defined.

(** X15. [available], [permissionStatus] and [requestPermission] never
    show, draw or dismiss a notification and never change the cache,
    however they complete: the only host calls they make are permission
    queries and permission requests. *)
Theorem queries_leave_notifications_alone
        (env : Env) (callback : value) (s : state) :
  only_calls quiet s (snd (available env s)) /\
  only_calls quiet s (snd (permissionStatus env s)) /\
  only_calls quiet s (snd (requestPermission env callback s)).
Proof.
  assert (Hq : forall ev, is_query ev = true -> quiet ev = true)
    by (intros ev; destruct ev; simpl; intros H; try discriminate; reflexivity).
  split; [|split].
  - exact (only_calls_weaken is_query quiet _ _ Hq (keeps_available env s)).
  - exact (only_calls_weaken is_query quiet _ _ Hq
                             (keeps_permissionStatus env s)).
  - exact (keeps_requestPermission env callback s).
Qed.

(** ** Sending again and again *)






